(** * Math quiz bot: session registry, round coordination and scoring

    A shallow embedding of [math_quiz_bot.py].  The module-level dictionary
    [quizzes] maps a chat to a quiz dictionary; the coroutine
    [run_quiz_loop] keeps its own reference to that dictionary while the
    handlers look it up again through [quizzes].  The embedding therefore
    has a heap of quiz objects and a registry of references into it.

    Each handler body is run to completion: an [await] of an outbound
    send is an append to the outbox, and the suspension points of the
    coroutines ([asyncio.sleep], [Event.wait]) are the boundaries between
    the step functions below.

    Strings hold the UTF-8 encoding of the [str] they stand for, and a
    float is carried as the rational it denotes, every operation on
    floats rounding its exact result to binary64. *)

From stdpp Require Import base gmap list strings.
From Stdlib Require Import Ascii ZArith QArith Qround Qminmax Qpower Lqa.
From Stdlib Require Import Sorted Permutation.

Local Open Scope Z_scope.

(** ** Game constants *)

Definition DEFAULT_TIMEOUT_PER_Q : Z := 20.
Definition POINTS_CORRECT : Z := 100.
Definition POINTS_PER_SECOND_SPEED_BONUS_MAX : Z := 50.
Definition STREAK_BONUS_PER_LEVEL : Z := 10.

Definition CHEERING_QUOTES : list string :=
  [ "Victory is sweetest when you've known defeat.";
    "A champion is afraid of losing. Everyone else is afraid of winning.";
    "The harder the battle, the sweeter the victory.";
    "You are a true champion! Well played!";
    "In the arena of quiz, you are the gladiator!";
    "Your mind is a finely-tuned weapon! Congratulations!" ]%string.

(** ** The Python built-ins the handlers rely on *)

Module Py.

Inductive exn := KeyError | ValueError | IndexError | AttributeError.

(** *** Text

    A [str] is a sequence of code points. *)
Definition str := list N.

Definition is_continuation (b : N) : bool := ((0x80 <=? b) && (b <? 0xC0))%N.

(** One character of UTF-8: [b] is its first byte, [s1] the bytes behind
    it, and [decode] reads on after the character.  Encodings longer
    than needed and code points above U+10FFFF are not characters; a
    byte that starts no character is kept as the lone surrogate
    U+DC00 + [b], which is neither white space nor a digit. *)
Definition utf8_char (decode : list N -> str) (b : N) (s1 : list N) : str :=
  let stray := (0xDC00 + b)%N :: decode s1 in
  if (b <? 0x80)%N then b :: decode s1 else
  match s1 with
  | [] => stray
  | c1 :: s2 =>
      if negb (is_continuation c1) then stray
      else if ((0xC2 <=? b) && (b <? 0xE0))%N
      then ((b - 0xC0) * 0x40 + (c1 - 0x80))%N :: decode s2
      else
      match s2 with
      | [] => stray
      | c2 :: s3 =>
          if negb (is_continuation c2) then stray
          else if ((0xE0 <=? b) && (b <? 0xF0)
                   && ((0xE1 <=? b) || (0xA0 <=? c1)))%N
          then ((b - 0xE0) * 0x1000 + (c1 - 0x80) * 0x40
                + (c2 - 0x80))%N :: decode s3
          else
          match s3 with
          | [] => stray
          | c3 :: s4 =>
              if (is_continuation c3
                  && ((0xF0 <=? b) && (b <? 0xF5))
                  && ((0xF1 <=? b) || (0x90 <=? c1))
                  && ((b <? 0xF4) || (c1 <? 0x90)))%N
              then ((b - 0xF0) * 0x40000 + (c1 - 0x80) * 0x1000
                    + (c2 - 0x80) * 0x40 + (c3 - 0x80))%N
                   :: decode s4
              else stray
          end
      end
  end.

Fixpoint decode_utf8 (s : list N) : str :=
  match s with
  | [] => []
  | b :: s1 => utf8_char decode_utf8 b s1
  end.

(** The [str] a string of this file stands for. *)
Definition decode (s : string) : str :=
  decode_utf8 (map N_of_ascii (String.list_ascii_of_string s)).

(** [str.isspace] of one character ([Py_UNICODE_ISSPACE]): what
    [str.strip] takes away. *)
Definition isspace (c : N) : bool :=
  (((0x09 <=? c) && (c <=? 0x0D)) || ((0x1C <=? c) && (c <=? 0x20))
   || (c =? 0x85) || (c =? 0xA0) || (c =? 0x1680)
   || ((0x2000 <=? c) && (c <=? 0x200A))
   || (c =? 0x2028) || (c =? 0x2029) || (c =? 0x202F) || (c =? 0x205F)
   || (c =? 0x3000))%N.

Fixpoint lstrip (s : str) : str :=
  match s with
  | c :: s' => if isspace c then lstrip s' else s
  | [] => []
  end.

(** [s.strip()] *)
Definition strip (s : str) : str :=
  rev (lstrip (rev (lstrip s))).

(** The white space of the integer parser ([Py_ISSPACE]): it lacks the
    separators U+001C to U+001F that [str.strip] takes away. *)
Definition ISSPACE (c : N) : bool :=
  (((0x09 <=? c) && (c <=? 0x0D)) || (c =? 0x20))%N.

Fixpoint skip_spaces (s : str) : str :=
  match s with
  | c :: s' => if ISSPACE c then skip_spaces s' else s
  | [] => []
  end.

Definition digit (c : N) : option Z :=
  if ((48 <=? c) && (c <=? 57))%N then Some (Z.of_N c - 48) else None.

(** [sys.int_info.default_max_str_digits] *)
Definition max_str_digits : Z := 4300.

(** The digits behind the first one, where a single underscore may sit
    between two digits: the value, the number of digits, and what
    follows the literal. *)
Fixpoint int_digits (acc : Z) (digits : Z) (s : str)
  : option (Z * Z * str) :=
  match s with
  | [] => Some (acc, digits, [])
  | c :: s' =>
      match digit c with
      | Some d => int_digits (10 * acc + d) (digits + 1) s'
      | None =>
          if (c =? 95)%N then
            match s' with
            | c' :: s'' =>
                match digit c' with
                | Some d => int_digits (10 * acc + d) (digits + 1) s''
                | None => None
                end
            | [] => None
            end
          else Some (acc, digits, s)
      end
  end.

(** The integer parser in base 10 on an ASCII buffer: white space, a
    sign, the digits, white space, and nothing else. *)
Definition long_from_string (s : str) : option Z :=
  let s1 := skip_spaces s in
  let '(sign, s2) :=
    match s1 with
    | c :: s' => if (c =? 43)%N then (1, s')
                 else if (c =? 45)%N then (-1, s') else (1, s1)
    | [] => (1, s1)
    end in
  match s2 with
  | c :: s3 =>
      match digit c with
      | Some d =>
          match int_digits d 1 s3 with
          | Some (v, digits, rest) =>
              match skip_spaces rest with
              | [] => if max_str_digits <? digits then None
                      else Some (sign * v)
              | _ :: _ => None
              end
          | None => None
          end
      | None => None
      end
  | [] => None
  end.

Section Int.
(** The value of a character that is a decimal digit in the Unicode
    database of the interpreter ([Py_UNICODE_TODECIMAL]). *)
Context (todecimal : N -> option N).

(** What [int] does to a [str] before parsing it: a white space
    character becomes a blank, a decimal digit of any script its ASCII
    digit, and at any other character the text ends in a question mark.
    Characters below 127 stay. *)
Fixpoint transform_decimal_and_space (s : str) : str :=
  match s with
  | [] => []
  | ch :: s' =>
      if (ch <? 127)%N then ch :: transform_decimal_and_space s'
      else if isspace ch then 32%N :: transform_decimal_and_space s'
      else match todecimal ch with
           | Some decimal =>
               (48 + decimal)%N :: transform_decimal_and_space s'
           | None => [63%N]
           end
  end.

(** [int(s)] of a [str]; [None] stands for [ValueError].  An ASCII-only
    [str] is parsed as it is. *)
Definition int (s : str) : option Z :=
  long_from_string
    (if forallb (fun ch => (ch <? 128)%N) s then s
     else transform_decimal_and_space s).
End Int.

(** *** Floats

    [binary64 x] is the float nearest to [x], a tie going to the even
    significand: 53 bits of significand and exponents from -1022 on.
    The exponent has no upper end here; clock readings and scores stay
    far below the largest float. *)
Definition pow2 (k : Z) : Q := (2 ^ k)%Q.

(** [floor (log2 x)] of a positive [x] *)
Definition ilog2 (x : Q) : Z :=
  let c := Z.log2 (Qnum x) - Z.log2 (Zpos (Qden x)) in
  if Qle_bool (pow2 c) x then c else c - 1.

(** The nearest integer, a tie going to the even one. *)
Definition rne (q : Q) : Z :=
  let f := Qfloor q in
  match (q - inject_Z f ?= 1 # 2)%Q with
  | Lt => f
  | Gt => f + 1
  | Eq => if Z.even f then f else f + 1
  end.

Definition binary64_pos (a : Q) : Q :=
  let e := Z.max (ilog2 a) (-1022) in
  (inject_Z (rne (a * pow2 (52 - e))) * pow2 (e - 52))%Q.

Definition binary64 (x : Q) : Q :=
  match Qnum x with
  | Z0 => 0%Q
  | Zpos _ => binary64_pos x
  | Zneg _ => (- binary64_pos (- x))%Q
  end.

(** [x - y], [x / y] and [x * y] on floats *)
Definition sub (x y : Q) : Q := binary64 (x - y).
Definition truediv (x y : Q) : Q := binary64 (x / y).
Definition mul (x y : Q) : Q := binary64 (x * y).

(** [max(0, x)] *)
Definition max0 (x : Q) : Q := if Qle_bool x 0 then 0%Q else x.

(** [int(x)] on a float: truncation towards zero. *)
Definition int_of_float (x : Q) : Z :=
  if Qle_bool 0 x then Qfloor x else Qceiling x.

(** [round(x)]: the nearest integer, a tie going to the even one. *)
Definition round (x : Q) : Z := rne x.

(** [s.split(sep)] *)
Fixpoint split_from (sep : ascii) (cur : list ascii) (s : list ascii)
  : list string :=
  match s with
  | [] => [String.string_of_list_ascii (rev cur)]
  | c :: s' =>
      if Ascii.eqb c sep
      then String.string_of_list_ascii (rev cur) :: split_from sep [] s'
      else split_from sep (c :: cur) s'
  end.

Definition split (sep : ascii) (s : string) : list string :=
  split_from sep [] (String.list_ascii_of_string s).

(** [sorted(items, key=key, reverse=True)].  The result of a stable sort
    is determined by the input, so insertion stands for the library's
    merge strategy: an element is put in front of the first later
    element whose key is not larger than its own. *)
Section Sorted.
Context {A : Type} (key : A -> Z).

Fixpoint insert_desc (x : A) (l : list A) : list A :=
  match l with
  | [] => [x]
  | y :: l' => if key y <=? key x then x :: l
               else y :: insert_desc x l'
  end.

Fixpoint sorted_desc (l : list A) : list A :=
  match l with
  | [] => []
  | x :: l' => insert_desc x (sorted_desc l')
  end.
End Sorted.

End Py.

(** ** Game state *)

Inductive operator := Plus | Minus.

(** The expression [f"{nums[0]} {ops[0]} {nums[1]} {ops[1]} {nums[2]}"],
    kept as the operands and operators it is printed from. *)
Record expression := {
  nums : Z * Z * Z;
  ops : operator * operator }.

Record question := {
  q_text : expression;            (* "What is {expression}?" *)
  q_answer : Z;
  q_type : string;
  q_difficulty : string }.

Record player := {
  points : Z;
  streak : Z;
  username : string }.

(** [quiz["scores"]]: a dict keeps its keys in insertion order, which is
    the order [sorted] starts from. *)
Definition scores_t := list (Z * player).

Record config_t := {
  difficulty : option string;
  num_questions : option Z }.

(** A quiz dictionary.  A key that may be missing, or hold [None], is an
    option. *)
Record quiz := {
  status : string;
  host_id : Z;
  config : config_t;
  active : bool;
  questions_data : option (list question);
  current_q_index : option Z;
  current_question_details : option question;
  q_start_time : option Q;
  first_answerer_id : option Z;
  scores : option scores_t;
  current_question_event : option bool;    (* asyncio.Event: is it set? *)
  setup_message_id : option Z }.

Definition set_status (v : string) (q : quiz) : quiz :=
  {| status := v; host_id := host_id q; config := config q;
     active := active q; questions_data := questions_data q;
     current_q_index := current_q_index q;
     current_question_details := current_question_details q;
     q_start_time := q_start_time q;
     first_answerer_id := first_answerer_id q; scores := scores q;
     current_question_event := current_question_event q;
     setup_message_id := setup_message_id q |}.

Definition set_config (v : config_t) (q : quiz) : quiz :=
  {| status := status q; host_id := host_id q; config := v;
     active := active q; questions_data := questions_data q;
     current_q_index := current_q_index q;
     current_question_details := current_question_details q;
     q_start_time := q_start_time q;
     first_answerer_id := first_answerer_id q; scores := scores q;
     current_question_event := current_question_event q;
     setup_message_id := setup_message_id q |}.

Definition set_active (v : bool) (q : quiz) : quiz :=
  {| status := status q; host_id := host_id q; config := config q;
     active := v; questions_data := questions_data q;
     current_q_index := current_q_index q;
     current_question_details := current_question_details q;
     q_start_time := q_start_time q;
     first_answerer_id := first_answerer_id q; scores := scores q;
     current_question_event := current_question_event q;
     setup_message_id := setup_message_id q |}.

Definition set_q_start_time (v : option Q) (q : quiz) : quiz :=
  {| status := status q; host_id := host_id q; config := config q;
     active := active q; questions_data := questions_data q;
     current_q_index := current_q_index q;
     current_question_details := current_question_details q;
     q_start_time := v;
     first_answerer_id := first_answerer_id q; scores := scores q;
     current_question_event := current_question_event q;
     setup_message_id := setup_message_id q |}.

Definition set_first_answerer_id (v : option Z) (q : quiz) : quiz :=
  {| status := status q; host_id := host_id q; config := config q;
     active := active q; questions_data := questions_data q;
     current_q_index := current_q_index q;
     current_question_details := current_question_details q;
     q_start_time := q_start_time q;
     first_answerer_id := v; scores := scores q;
     current_question_event := current_question_event q;
     setup_message_id := setup_message_id q |}.

Definition set_scores (v : option scores_t) (q : quiz) : quiz :=
  {| status := status q; host_id := host_id q; config := config q;
     active := active q; questions_data := questions_data q;
     current_q_index := current_q_index q;
     current_question_details := current_question_details q;
     q_start_time := q_start_time q;
     first_answerer_id := first_answerer_id q; scores := v;
     current_question_event := current_question_event q;
     setup_message_id := setup_message_id q |}.

Definition set_current_question_event (v : option bool) (q : quiz) : quiz :=
  {| status := status q; host_id := host_id q; config := config q;
     active := active q; questions_data := questions_data q;
     current_q_index := current_q_index q;
     current_question_details := current_question_details q;
     q_start_time := q_start_time q;
     first_answerer_id := first_answerer_id q; scores := scores q;
     current_question_event := v;
     setup_message_id := setup_message_id q |}.

Definition set_setup_message_id (v : option Z) (q : quiz) : quiz :=
  {| status := status q; host_id := host_id q; config := config q;
     active := active q; questions_data := questions_data q;
     current_q_index := current_q_index q;
     current_question_details := current_question_details q;
     q_start_time := q_start_time q;
     first_answerer_id := first_answerer_id q; scores := scores q;
     current_question_event := current_question_event q;
     setup_message_id := v |}.

(** [event.set()] where [quiz.get("current_question_event")] is truthy;
    an event object is always truthy. *)
Definition fire_event (q : quiz) : quiz :=
  match current_question_event q with
  | Some _ => set_current_question_event (Some true) q
  | None => q
  end.

(** ** Outbound messages

    One constructor per text the bot sends, replies with or edits in,
    carrying the values the text is formatted from. *)

Record row := {
  place : Z;
  row_username : string;
  row_points : Z;
  streak_icon : option Z }.      (* the streak, shown when it exceeds 1 *)

Inductive message :=
| AlreadyRunning
| SetupWelcome (first_name : string)
| NoQuizToStop
| OnlyHostOrAdmin
| QuizStopped (stopper_name : string)
| OnlyStarterCanConfigure
| ConfigurationAlreadyComplete
| SetupCancelled
| DifficultySet (config_value : string)
| SetupComplete (difficulty : string) (num_questions : Z)
| CorrectAnswer (username : string) (correct_answer points_earned total : Z)
| QuestionPrompt (number num_questions : Z) (text : expression)
| TimesUp (correct_answer : Z)
| EndedWithoutScores
| Leaderboard (mid_quiz : bool) (rows : list row) (no_scores_line : bool)
| NextQuestionSoon
| QuizFinished
| Congratulations (winner_name quote : string).

(** ** The process state *)

Record world := {
  heap : gmap nat quiz;           (* the quiz dictionaries, by reference *)
  quizzes : gmap Z nat;           (* group_id -> quiz_data *)
  outbox : list (Z * message);    (* (chat_id, message), oldest first *)
  rng : nat }.                    (* how many random draws were made *)

Definition with_heap (h : gmap nat quiz) (w : world) : world :=
  {| heap := h; quizzes := quizzes w; outbox := outbox w; rng := rng w |}.

Definition with_quizzes (r : gmap Z nat) (w : world) : world :=
  {| heap := heap w; quizzes := r; outbox := outbox w; rng := rng w |}.

Definition with_rng (k : nat) (w : world) : world :=
  {| heap := heap w; quizzes := quizzes w; outbox := outbox w; rng := k |}.

Definition send_message (chat_id : Z) (m : message) (w : world) : world :=
  {| heap := heap w; quizzes := quizzes w;
     outbox := outbox w ++ [(chat_id, m)]; rng := rng w |}.

(** [quizzes.get(group_id)], with the reference it was found under. *)
Definition get_quiz (group_id : Z) (w : world) : option (nat * quiz) :=
  match quizzes w !! group_id with
  | Some l => match heap w !! l with
              | Some q => Some (l, q)
              | None => None
              end
  | None => None
  end.

(** A mutation of the dictionary behind reference [l]. *)
Definition store (l : nat) (q : quiz) (w : world) : world :=
  with_heap (<[l := q]> (heap w)) w.

(** [del quizzes[group_id]] *)
Definition del_quiz (group_id : Z) (w : world) : world :=
  with_quizzes (delete group_id (quizzes w)) w.

Inductive outcome :=
| Returned (w : world)
| Raised (e : Py.exn) (w : world).

Definition world_of (o : outcome) : world :=
  match o with Returned w => w | Raised _ w => w end.

(** ** Scores *)

Fixpoint scores_get (user_id : Z) (sc : scores_t) : option player :=
  match sc with
  | [] => None
  | (k, d) :: sc' => if k =? user_id then Some d else scores_get user_id sc'
  end.

(** An in-place change of the entry of [user_id]; it keeps its position. *)
Definition scores_alter (f : player -> player) (user_id : Z) (sc : scores_t)
  : scores_t :=
  map (fun e => if fst e =? user_id then (fst e, f (snd e)) else e) sc.

(** [if user_id not in scores: scores[user_id] = d]: a new key goes last. *)
Definition scores_setdefault (user_id : Z) (d : player) (sc : scores_t)
  : scores_t :=
  match scores_get user_id sc with
  | Some _ => sc
  | None => sc ++ [(user_id, d)]
  end.

Definition set_username (v : string) (d : player) : player :=
  {| points := points d; streak := streak d; username := v |}.

Definition set_streak (v : Z) (d : player) : player :=
  {| points := points d; streak := v; username := username d |}.

Definition add_points (v : Z) (d : player) : player :=
  {| points := points d + v; streak := streak d; username := username d |}.

(** [for p_id in scores: if p_id != user_id: scores[p_id]["streak"] = 0] *)
Definition reset_other_streaks (user_id : Z) (sc : scores_t) : scores_t :=
  map (fun e => if fst e =? user_id then e else (fst e, set_streak 0 (snd e)))
      sc.

(** [for player_data in scores.values(): player_data["streak"] = 0] *)
Definition reset_all_streaks (sc : scores_t) : scores_t :=
  map (fun e => (fst e, set_streak 0 (snd e))) sc.

(** ** Scoring (the arithmetic of [handle_text_answer]) *)

Definition speed_bonus (time_taken : Q) : Z :=
  let time_bonus_factor :=
    Py.max0 (Py.truediv (Py.sub (inject_Z DEFAULT_TIMEOUT_PER_Q) time_taken)
                        (inject_Z DEFAULT_TIMEOUT_PER_Q)) in
  Py.int_of_float
    (Py.mul (inject_Z POINTS_PER_SECOND_SPEED_BONUS_MAX) time_bonus_factor).

Definition streak_bonus (current_streak : Z) : Z :=
  (current_streak - 1) * STREAK_BONUS_PER_LEVEL.

(** [not quiz.get("q_start_time")]: a missing key, [None] and [0.0] are
    all falsy. *)
Definition q_start_time_truthy (q : quiz) : option Q :=
  match q_start_time q with
  | Some t => if Qeq_bool t 0 then None else Some t
  | None => None
  end.

(** ** The handlers *)

(** What the chat platform answers to [get_chat_member]. *)
Inductive member_status :=
  ADMINISTRATOR | OWNER | MEMBER | RESTRICTED | LEFT | BANNED.

Section Bot.

(** What the process does not decide itself: the stream the [random]
    module draws from, the platform's membership lookup ([None] when the
    call raises), and the decimal digits of the interpreter's Unicode
    database. *)
Context (entropy : nat -> nat).
Context (get_chat_member : Z -> Z -> option member_status).
Context (todecimal : N -> option N).

(** *** Question generation *)

Definition randint (a b : Z) (k : nat) : Z :=
  a + Z.of_nat (entropy k) mod (b - a + 1).

Definition choice {A : Type} (l : list A) (d : A) (k : nat) : A :=
  nth (entropy k mod length l)%nat l d.

Definition apply_op (o : operator) (x y : Z) : Z :=
  match o with Plus => x + y | Minus => x - y end.

(** [eval(expression)]: both operators have the same precedence, so the
    value is taken from left to right.  It cannot raise on such an
    expression, which leaves the [except] branch without a use. *)
Definition eval (e : expression) : Z :=
  let '(a, b, c) := nums e in
  let '(o1, o2) := ops e in
  apply_op o2 (apply_op o1 a b) c.

Definition generate_math_question (difficulty : string) (k : nat)
  : question * nat :=
  let '(lo, hi) :=
    if String.eqb difficulty "easy" then (1, 25)
    else if String.eqb difficulty "medium" then (10, 75)
    else (20, 150) in
  let n0 := randint lo hi k in
  let n1 := randint lo hi (k + 1) in
  let n2 := randint lo hi (k + 2) in
  let o0 := choice [Plus; Minus] Plus (k + 3) in
  let o1 := choice [Plus; Minus] Plus (k + 4) in
  let expression := {| nums := (n0, n1, n2); ops := (o0, o1) |} in
  ({| q_text := expression; q_answer := eval expression;
      q_type := "math_text"; q_difficulty := difficulty |}, (k + 5)%nat).

(** [[generate_math_question(difficulty) for _ in range(num_questions)]] *)
Fixpoint generate_questions (difficulty : string) (n : nat) (k : nat)
  : list question * nat :=
  match n with
  | O => ([], k)
  | S n' =>
      let '(q, k1) := generate_math_question difficulty k in
      let '(qs, k2) := generate_questions difficulty n' k1 in
      (q :: qs, k2)
  end.

(** *** [quiz_command] *)

Definition new_quiz (user_id : Z) : quiz :=
  {| status := "configuring"; host_id := user_id;
     config := {| difficulty := None; num_questions := None |};
     active := false; questions_data := None; current_q_index := None;
     current_question_details := None; q_start_time := None;
     first_answerer_id := None; scores := None;
     current_question_event := None; setup_message_id := None |}.

Definition start_setup (group_id user_id : Z) (first_name : string)
    (message_id : Z) (w : world) : world :=
  let l := fresh (dom (heap w)) in
  let w1 := with_quizzes (<[group_id := l]> (quizzes w))
              (store l (new_quiz user_id) w) in
  let w2 := send_message group_id (SetupWelcome first_name) w1 in
  store l (set_setup_message_id (Some message_id) (new_quiz user_id)) w2.

Definition quiz_command (group_id user_id : Z) (first_name : string)
    (message_id : Z) (w : world) : world :=
  match get_quiz group_id w with
  | Some (_, quiz) =>
      if active quiz then send_message group_id AlreadyRunning w
      else start_setup group_id user_id first_name message_id w
  | None => start_setup group_id user_id first_name message_id w
  end.

(** *** [show_leaderboard] *)

Fixpoint render_rows (i : Z) (l : scores_t) : list row :=
  match l with
  | [] => []
  | (_, data) :: l' =>
      {| place := i; row_username := username data;
         row_points := points data;
         streak_icon := if 1 <? streak data then Some (streak data)
                        else None |}
      :: render_rows (i + 1) l'
  end.

Definition show_leaderboard (group_id : Z) (mid_quiz final : bool)
    (w : world) : world :=
  let no_scores :=
    if final then send_message group_id EndedWithoutScores w else w in
  match get_quiz group_id w with
  | None => no_scores
  | Some (_, quiz) =>
      match scores quiz with
      | None | Some [] => no_scores
      | Some sc =>
          let sorted_scores :=
            Py.sorted_desc (fun item => points (snd item)) sc in
          let rows := render_rows 1 (firstn 10 sorted_scores) in
          let empty :=
            match sorted_scores with [] => true | _ => false end in
          let w1 :=
            send_message group_id (Leaderboard mid_quiz rows empty) w in
          match sorted_scores with
          | (_, first) :: _ =>
              if final then
                let cheering_quote :=
                  choice CHEERING_QUOTES "" (rng w1) in
                with_rng (S (rng w1))
                  (send_message group_id
                     (Congratulations (username first) cheering_quote) w1)
              else w1
          | [] => w1
          end
      end
  end.

(** *** [_is_admin] and [stop_quiz] *)

Definition _is_admin (chat_type : string) (chat_id user_id : Z) : bool :=
  if String.eqb chat_type "private" then true
  else match get_chat_member chat_id user_id with
       | Some ADMINISTRATOR | Some OWNER => true
       | Some _ => false
       | None => false
       end.

Definition stop_quiz (group_id user_id : Z) (first_name chat_type : string)
    (w : world) : world :=
  match get_quiz group_id w with
  | None => send_message group_id NoQuizToStop w
  | Some (l, quiz) =>
      let is_admin := _is_admin chat_type group_id user_id in
      if negb (user_id =? host_id quiz) && negb is_admin
      then send_message group_id OnlyHostOrAdmin w
      else
        let quiz1 := fire_event (set_status "stopped" (set_active false quiz)) in
        let w1 := send_message group_id (QuizStopped first_name)
                    (store l quiz1 w) in
        let w2 := match scores quiz1 with
                  | Some (_ :: _) => show_leaderboard group_id false true w1
                  | _ => w1
                  end in
        del_quiz group_id w2
  end.

(** *** [handle_config_callback]

    [data] is the callback data, [group_id] the chat of the message the
    buttons hang on. *)

Definition activate (qs : list question) (q : quiz) : quiz :=
  {| status := "active"; host_id := host_id q; config := config q;
     active := true; questions_data := Some qs;
     current_q_index := Some (-1);
     current_question_details := current_question_details q;
     q_start_time := q_start_time q;
     first_answerer_id := first_answerer_id q; scores := Some [];
     current_question_event := Some false;
     setup_message_id := setup_message_id q |}.

Definition handle_config_callback (group_id user_id : Z) (data : string)
    (w : world) : outcome :=
  match get_quiz group_id w with
  | None => Returned (send_message user_id OnlyStarterCanConfigure w)
  | Some (l, quiz) =>
      if negb (user_id =? host_id quiz)
      then Returned (send_message user_id OnlyStarterCanConfigure w)
      else if negb (String.eqb (status quiz) "configuring")
      then Returned (send_message group_id ConfigurationAlreadyComplete w)
      else
        match Py.split ":" data with
        | [_; config_type; config_value] =>
            if String.eqb config_type "cancel" then
              Returned (send_message group_id SetupCancelled
                          (del_quiz group_id w))
            else if String.eqb config_type "difficulty" then
              let quiz1 :=
                set_config {| difficulty := Some config_value;
                              num_questions := num_questions (config quiz) |}
                           quiz in
              Returned (send_message group_id (DifficultySet config_value)
                          (store l quiz1 w))
            else if String.eqb config_type "questions" then
              match Py.int todecimal (Py.decode config_value) with
              | None => Raised Py.ValueError w
              | Some n =>
                  let quiz1 :=
                    set_config {| difficulty := difficulty (config quiz);
                                  num_questions := Some n |} quiz in
                  match difficulty (config quiz1) with
                  | None => Raised Py.KeyError (store l quiz1 w)
                  | Some d =>
                      let '(qs, k) :=
                        generate_questions d (Z.to_nat n) (rng w) in
                      Returned
                        (send_message group_id (SetupComplete d n)
                           (with_rng k (store l (activate qs quiz1) w)))
                  end
              end
            else if String.eqb config_type "back" then
              (* quiz_command is handed the callback query in place of an
                 update; the query has no effective_chat to read, so the
                 call fails on its first line. *)
              Raised Py.AttributeError w
            else Returned w
        | _ => Raised Py.ValueError w
        end
  end.

(** *** [handle_text_answer] *)

Definition handle_text_answer (group_id user_id : Z)
    (first_name text : string) (now : Q) (w : world) : outcome :=
  match get_quiz group_id w with
  | None => Returned w
  | Some (l, quiz) =>
      if negb (active quiz) then Returned w else
      match first_answerer_id quiz with
      | Some _ => Returned w
      | None =>
      match q_start_time_truthy quiz with
      | None => Returned w
      | Some start =>
      match Py.int todecimal (Py.strip (Py.decode text)) with
      | None => Returned w
      | Some user_answer =>
      match current_question_details quiz with
      | None => Raised Py.KeyError w
      | Some details =>
          let correct_answer := q_answer details in
          if user_answer =? correct_answer then
            let time_taken := Py.sub now start in
            let quiz1 := set_first_answerer_id (Some user_id) quiz in
            match scores quiz1 with
            | None => Raised Py.KeyError (store l quiz1 w)
            | Some sc =>
                let sc1 :=
                  scores_setdefault user_id
                    {| points := 0; streak := 0; username := first_name |}
                    sc in
                let sc2 := scores_alter (set_username first_name) user_id sc1 in
                let current_streak :=
                  default 0 (streak <$> scores_get user_id sc2) + 1 in
                let sc3 :=
                  scores_alter (set_streak current_streak) user_id sc2 in
                let points_earned :=
                  POINTS_CORRECT + speed_bonus time_taken
                  + streak_bonus current_streak in
                let sc4 :=
                  scores_alter (add_points points_earned) user_id sc3 in
                let total := default 0 (points <$> scores_get user_id sc4) in
                let w1 :=
                  send_message group_id
                    (CorrectAnswer first_name correct_answer
                                   points_earned total) w in
                let sc5 := reset_other_streaks user_id sc4 in
                Returned
                  (store l (fire_event (set_scores (Some sc5) quiz1)) w1)
            end
          else Returned w
      end end end end
  end.

(** *** [end_question_by_timeout], from its wake-up onwards *)

Definition end_question_by_timeout (group_id q_index : Z) (w : world)
  : outcome :=
  match get_quiz group_id w with
  | None => Returned w
  | Some (l, quiz) =>
      if negb (active quiz) then Returned w else
      match current_q_index quiz with
      | None => Returned w
      | Some i =>
      if negb (i =? q_index) then Returned w else
      match first_answerer_id quiz with
      | Some _ => Returned w
      | None =>
      match scores quiz with
      | None => Raised Py.KeyError w
      | Some sc =>
          let quiz1 := set_scores (Some (reset_all_streaks sc)) quiz in
          match current_question_details quiz1 with
          | None => Raised Py.KeyError (store l quiz1 w)
          | Some details =>
              Returned
                (store l (fire_event quiz1)
                   (send_message group_id (TimesUp (q_answer details)) w))
          end
      end end end
  end.

(** *** [run_quiz_loop]

    The coroutine is cut at its suspension points.  [l] is the reference
    it took from [quizzes] when it started and keeps using afterwards. *)

Inductive loop_state :=
| Iteration (l : nat) (num_questions i : Z)  (* at the head of the for loop *)
| Waiting (l : nat) (num_questions i : Z)    (* in event.wait() of round i *)
| Sleeping (l : nat) (num_questions i : Z)   (* in asyncio.sleep(5) *)
| Finishing (l : nat)                        (* behind the for loop *)
| Exited.

Definition run_quiz_loop (group_id : Z) (w : world) : outcome * loop_state :=
  match get_quiz group_id w with
  | None => (Returned w, Exited)
  | Some (l, quiz) =>
      match num_questions (config quiz) with
      | None => (Raised Py.KeyError w, Exited)
      | Some n => (Returned w, Iteration l n 0)
      end
  end.

(** The round state [quiz.update] installs at the start of round [i]. *)
Definition begin_round (i : Z) (details : question) (q : quiz) : quiz :=
  {| status := status q; host_id := host_id q; config := config q;
     active := active q; questions_data := questions_data q;
     current_q_index := Some i;
     current_question_details := Some details;
     q_start_time := None;
     first_answerer_id := None; scores := scores q;
     current_question_event := current_question_event q;
     setup_message_id := setup_message_id q |}.

(** From the head of iteration [i] to [event.wait()]. *)
Definition loop_iteration (group_id : Z) (l : nat) (n i : Z) (now : Q)
    (w : world) : outcome * loop_state :=
  if n <=? i then (Returned w, Finishing l) else
  match heap w !! l with
  | None => (Returned w, Exited)
  | Some quiz =>
      if negb (active quiz) then (Returned w, Finishing l) else
      match questions_data quiz with
      | None => (Raised Py.KeyError w, Exited)
      | Some qs =>
      match qs !! Z.to_nat i with
      | None => (Raised Py.IndexError w, Exited)
      | Some details =>
          let quiz1 := begin_round i details quiz in
          let w1 := send_message group_id
                      (QuestionPrompt (i + 1) n (q_text details))
                      (store l quiz1 w) in
          let quiz2 := set_q_start_time (Some now) quiz1 in
          match current_question_event quiz2 with
          | None => (Raised Py.KeyError (store l quiz2 w1), Exited)
          | Some _ =>
              (Returned
                 (store l (set_current_question_event (Some false) quiz2) w1),
               Waiting l n i)
          end
      end end
  end.

(** From the return of [event.wait()] to the next suspension. *)
Definition loop_resume (group_id : Z) (l : nat) (n i : Z) (w : world)
  : world * loop_state :=
  match heap w !! l with
  | None => (w, Exited)
  | Some quiz =>
      if negb (active quiz) then (w, Finishing l)
      else if i <? n - 1 then
        (send_message group_id NextQuestionSoon
           (show_leaderboard group_id true false w),
         Sleeping l n i)
      else (w, Iteration l n (i + 1))
  end.

(** The code behind the for loop. *)
Definition loop_finish (group_id : Z) (l : nat) (w : world) : world :=
  match heap w !! l with
  | None => w
  | Some quiz =>
      if active quiz then
        let w1 := send_message group_id QuizFinished
                    (store l (set_active false quiz) w) in
        del_quiz group_id (show_leaderboard group_id false true w1)
      else w
  end.

Definition event_is_set (l : nat) (w : world) : bool :=
  match heap w !! l with
  | Some quiz => match current_question_event quiz with
                 | Some b => b
                 | None => false
                 end
  | None => false
  end.

Definition loop_step (group_id : Z) (now : Q) (st : loop_state) (w : world)
  : outcome * loop_state :=
  match st with
  | Iteration l n i => loop_iteration group_id l n i now w
  | Waiting l n i =>
      if event_is_set l w
      then let '(w', st') := loop_resume group_id l n i w in (Returned w', st')
      else (Returned w, st)
  | Sleeping l n i => (Returned w, Iteration l n (i + 1))
  | Finishing l => (Returned (loop_finish group_id l w), Exited)
  | Exited => (Returned w, Exited)
  end.

(** *** What can happen to a round that is waiting

    The three causes that may end a round of chat [group_id], as the
    dispatcher delivers them. *)

Inductive event :=
| Answer (user_id : Z) (first_name text : string) (now : Q)
| Timeout (q_index : Z)
| Stop (user_id : Z) (first_name chat_type : string).

Definition fire (group_id : Z) (ev : event) (w : world) : world :=
  match ev with
  | Answer user_id first_name text now =>
      world_of (handle_text_answer group_id user_id first_name text now w)
  | Timeout q_index => world_of (end_question_by_timeout group_id q_index w)
  | Stop user_id first_name chat_type =>
      stop_quiz group_id user_id first_name chat_type w
  end.


(** The two announcements that close a round. *)
Definition is_correct_answer (m : Z * message) : bool :=
  match snd m with CorrectAnswer _ _ _ _ => true | _ => false end.

Definition is_times_up (m : Z * message) : bool :=
  match snd m with TimesUp _ => true | _ => false end.



(** ** Properties *)

(** *** The registry and the heap *)

Lemma get_quiz_Some group_id w l q :
  get_quiz group_id w = Some (l, q) <->
  quizzes w !! group_id = Some l /\ heap w !! l = Some q.
Proof.
  unfold get_quiz. split.
  - destruct (quizzes w !! group_id) as [l'|]; [|discriminate].
    destruct (heap w !! l') as [q'|] eqn:Hq; [|discriminate].
    intros [= <- <-]. auto.
  - intros [-> ->]. reflexivity.
Qed.

Lemma get_quiz_send_message group_id chat_id m w :
  get_quiz group_id (send_message chat_id m w) = get_quiz group_id w.
Proof. reflexivity. Qed.

Lemma get_quiz_store group_id l q q' w :
  get_quiz group_id w = Some (l, q) ->
  get_quiz group_id (store l q' w) = Some (l, q').
Proof.
  intros [Hr _]%get_quiz_Some. apply get_quiz_Some. split; [exact Hr|].
  cbn. apply lookup_insert_eq.
Qed.

Lemma get_quiz_del_quiz group_id w : get_quiz group_id (del_quiz group_id w) = None.
Proof. unfold get_quiz, del_quiz. cbn. by rewrite lookup_delete_eq. Qed.

(** *** Scores as an insertion-ordered dictionary *)

Lemma scores_get_alter f user_id p sc :
  scores_get p (scores_alter f user_id sc)
  = if p =? user_id then f <$> scores_get p sc else scores_get p sc.
Proof.
  induction sc as [|[k d] sc IH]; cbn.
  - by destruct (p =? user_id).
  - destruct (k =? user_id) eqn:Hk; cbn; destruct (k =? p) eqn:Hp; cbn.
    + apply Z.eqb_eq in Hk, Hp. subst. by rewrite Z.eqb_refl.
    + exact IH.
    + apply Z.eqb_eq in Hp. subst. by rewrite Hk.
    + exact IH.
Qed.

Lemma scores_get_app p sc1 sc2 :
  scores_get p (sc1 ++ sc2)
  = match scores_get p sc1 with
    | Some d => Some d
    | None => scores_get p sc2
    end.
Proof.
  induction sc1 as [|[k d] sc1 IH]; cbn; [reflexivity|].
  by destruct (k =? p).
Qed.

Lemma scores_get_setdefault p user_id d sc :
  scores_get p (scores_setdefault user_id d sc)
  = match scores_get p sc with
    | Some d' => Some d'
    | None => if p =? user_id then Some d else None
    end.
Proof.
  unfold scores_setdefault.
  destruct (scores_get user_id sc) as [d0|] eqn:Hu.
  - destruct (scores_get p sc) eqn:Hp; [reflexivity|].
    destruct (p =? user_id) eqn:E; [|reflexivity].
    apply Z.eqb_eq in E. congruence.
  - rewrite scores_get_app. cbn. rewrite (Z.eqb_sym user_id p).
    reflexivity.
Qed.

Lemma scores_get_reset_other_streaks p user_id sc :
  scores_get p (reset_other_streaks user_id sc)
  = if p =? user_id then scores_get p sc
    else set_streak 0 <$> scores_get p sc.
Proof.
  induction sc as [|[k d] sc IH]; cbn.
  - by destruct (p =? user_id).
  - destruct (k =? user_id) eqn:Hk; cbn; destruct (k =? p) eqn:Hp; cbn.
    + apply Z.eqb_eq in Hk, Hp. subst. by rewrite Z.eqb_refl.
    + exact IH.
    + apply Z.eqb_eq in Hp. subst. by rewrite Hk.
    + exact IH.
Qed.

Lemma scores_get_reset_all_streaks p sc :
  scores_get p (reset_all_streaks sc) = set_streak 0 <$> scores_get p sc.
Proof.
  induction sc as [|[k d] sc IH]; cbn; [reflexivity|].
  by destruct (k =? p).
Qed.

(** *** Answer intake *)

(** The answer the current question of the chat expects, if any. *)
Definition expected_answer (group_id : Z) (w : world) : option Z :=
  match get_quiz group_id w with
  | Some (_, quiz) => q_answer <$> current_question_details quiz
  | None => None
  end.

Lemma unexpected_answer_returns group_id user_id first_name text now w :
  Py.int todecimal (Py.strip (Py.decode text)) = None
  \/ Py.int todecimal (Py.strip (Py.decode text))
     <> expected_answer group_id w ->
  world_of (handle_text_answer group_id user_id first_name text now w) = w.
Proof.
  intros Hwrong. unfold handle_text_answer, expected_answer in *.
  destruct (get_quiz group_id w) as [[l quiz]|]; [|reflexivity].
  destruct (active quiz); [|reflexivity]. cbn.
  destruct (first_answerer_id quiz); [reflexivity|].
  destruct (q_start_time_truthy quiz); [|reflexivity].
  destruct (Py.int todecimal (Py.strip (Py.decode text))) as [v|]; [|reflexivity].
  destruct (current_question_details quiz) as [details|]; [|reflexivity].
  destruct (v =? q_answer details) eqn:E; [|reflexivity].
  apply Z.eqb_eq in E. subst v.
  destruct Hwrong as [?|Hne]; [discriminate|]. by destruct Hne.
Qed.

(** C3.  A text that does not parse as an integer, or parses to a value
    other than the answer of the current question, leaves the whole
    process state as it was: the round is not locked and no entry of
    [scores] is created or changed. *)
Theorem wrong_or_malformed_answer_changes_nothing
    group_id user_id first_name text now w :
  Py.int todecimal (Py.strip (Py.decode text)) = None
  \/ Py.int todecimal (Py.strip (Py.decode text))
     <> expected_answer group_id w ->
  let w' :=
    world_of (handle_text_answer group_id user_id first_name text now w) in
  w' = w
  /\ get_quiz group_id w' = get_quiz group_id w
  /\ outbox w' = outbox w.
Proof.
  intros Hwrong. cbn zeta.
  by rewrite (unexpected_answer_returns _ _ _ _ _ _ Hwrong).
Qed.

(** A round that still takes answers: the guard of
    [handle_text_answer] lets a message through and the keys it reads
    are present. *)
Record round_open (group_id : Z) (w : world) (l : nat) (quiz : quiz)
    (start : Q) (details : question) (sc : scores_t) : Prop := {
  open_quiz : get_quiz group_id w = Some (l, quiz);
  open_active : active quiz = true;
  open_unlocked : first_answerer_id quiz = None;
  open_started : q_start_time_truthy quiz = Some start;
  open_details : current_question_details quiz = Some details;
  open_scores : scores quiz = Some sc }.

Definition prior_streak (user_id : Z) (sc : scores_t) : Z :=
  default 0 (streak <$> scores_get user_id sc).

Definition prior_points (user_id : Z) (sc : scores_t) : Z :=
  default 0 (points <$> scores_get user_id sc).

(** What [handle_text_answer] adds to the winner's points. *)
Definition points_earned (time_taken : Q) (streak_before : Z) : Z :=
  POINTS_CORRECT + speed_bonus time_taken + streak_bonus (streak_before + 1).

(** The scores after [user_id] has won the round. *)
Definition scores_after_win (user_id : Z) (first_name : string)
    (earned : Z) (sc : scores_t) : scores_t :=
  let sc1 := scores_setdefault user_id
               {| points := 0; streak := 0; username := first_name |} sc in
  let sc2 := scores_alter (set_username first_name) user_id sc1 in
  let sc3 := scores_alter (set_streak (prior_streak user_id sc + 1))
               user_id sc2 in
  let sc4 := scores_alter (add_points earned) user_id sc3 in
  reset_other_streaks user_id sc4.

Lemma scores_after_win_winner user_id first_name earned sc :
  scores_get user_id (scores_after_win user_id first_name earned sc)
  = Some {| points := prior_points user_id sc + earned;
            streak := prior_streak user_id sc + 1;
            username := first_name |}.
Proof.
  unfold scores_after_win, prior_points, prior_streak.
  rewrite scores_get_reset_other_streaks, !scores_get_alter,
    scores_get_setdefault, Z.eqb_refl.
  by destruct (scores_get user_id sc).
Qed.

Lemma scores_after_win_other user_id first_name earned sc p :
  p <> user_id ->
  scores_get p (scores_after_win user_id first_name earned sc)
  = set_streak 0 <$> scores_get p sc.
Proof.
  intros Hne%Z.eqb_neq. unfold scores_after_win.
  rewrite scores_get_reset_other_streaks, !scores_get_alter,
    scores_get_setdefault, Hne.
  by destruct (scores_get p sc).
Qed.

(** The whole effect of a correct answer on an open round. *)
Lemma correct_answer_effect
    group_id user_id first_name text now w l quiz start details sc :
  round_open group_id w l quiz start details sc ->
  Py.int todecimal (Py.strip (Py.decode text)) = Some (q_answer details) ->
  let earned := points_earned (Py.sub now start) (prior_streak user_id sc) in
  let sc' := scores_after_win user_id first_name earned sc in
  let quiz' := fire_event
                 (set_scores (Some sc')
                    (set_first_answerer_id (Some user_id) quiz)) in
  handle_text_answer group_id user_id first_name text now w
  = Returned
      (store l quiz'
         (send_message group_id
            (CorrectAnswer first_name (q_answer details) earned
               (prior_points user_id sc + earned)) w)).
Proof.
  intros [Hq Hact Hun Hst Hdet Hsc] Hint. cbn zeta.
  unfold handle_text_answer.
  rewrite Hq, Hact. cbn [negb]. rewrite Hun, Hst, Hint, Hdet, Z.eqb_refl.
  cbn [scores set_first_answerer_id]. rewrite Hsc.
  assert (Hstreak :
    default 0 (streak <$> scores_get user_id
      (scores_alter (set_username first_name) user_id
         (scores_setdefault user_id
            {| points := 0; streak := 0; username := first_name |} sc)))
    = prior_streak user_id sc).
  { rewrite scores_get_alter, scores_get_setdefault, Z.eqb_refl.
    unfold prior_streak. by destruct (scores_get user_id sc). }
  rewrite Hstreak.
  assert (Htotal :
    default 0 (points <$> scores_get user_id
      (scores_alter
         (add_points (points_earned (Py.sub now start) (prior_streak user_id sc)))
         user_id
         (scores_alter (set_streak (prior_streak user_id sc + 1)) user_id
            (scores_alter (set_username first_name) user_id
               (scores_setdefault user_id
                  {| points := 0; streak := 0; username := first_name |}
                  sc)))))
    = prior_points user_id sc
      + points_earned (Py.sub now start) (prior_streak user_id sc)).
  { rewrite !scores_get_alter, scores_get_setdefault, Z.eqb_refl.
    unfold prior_points. by destruct (scores_get user_id sc). }
  unfold points_earned in *. rewrite Htotal. reflexivity.
Qed.

Lemma fire_event_scores q : scores (fire_event q) = scores q.
Proof. unfold fire_event. by destruct (current_question_event q). Qed.

Lemma fire_event_first_answerer_id q :
  first_answerer_id (fire_event q) = first_answerer_id q.
Proof. unfold fire_event. by destruct (current_question_event q). Qed.

Lemma fire_event_active q : active (fire_event q) = active q.
Proof. unfold fire_event. by destruct (current_question_event q). Qed.


(** C4.  The first correct answer of a round, sent by [user_id], locks
    the round for [user_id], raises that player's streak by one and the
    points by the amount earned, and leaves every other player with
    streak 0 and the points held before. *)
Theorem first_correct_answer_frame
    group_id user_id first_name text now w l quiz start details sc :
  round_open group_id w l quiz start details sc ->
  Py.int todecimal (Py.strip (Py.decode text)) = Some (q_answer details) ->
  let earned := points_earned (Py.sub now start) (prior_streak user_id sc) in
  exists w' quiz' sc' d,
    handle_text_answer group_id user_id first_name text now w = Returned w'
    /\ get_quiz group_id w' = Some (l, quiz')
    /\ first_answerer_id quiz' = Some user_id
    /\ scores quiz' = Some sc'
    /\ scores_get user_id sc' = Some d
    /\ streak d = prior_streak user_id sc + 1
    /\ points d = prior_points user_id sc + earned
    /\ (forall p d', p <> user_id -> scores_get p sc' = Some d' ->
          streak d' = 0)
    /\ (forall p, p <> user_id ->
          points <$> scores_get p sc' = points <$> scores_get p sc).
Proof.
  intros Hopen Hint earned.
  pose proof (correct_answer_effect group_id user_id first_name text now
                w l quiz start details sc Hopen Hint) as Heff.
  cbn zeta in Heff. fold earned in Heff.
  eexists _, _, (scores_after_win user_id first_name earned sc), _.
  split; [exact Heff|].
  split; [eapply get_quiz_store; rewrite get_quiz_send_message;
          apply (open_quiz _ _ _ _ _ _ _ Hopen)|].
  split; [by rewrite fire_event_first_answerer_id|].
  split; [by rewrite fire_event_scores|].
  split; [apply scores_after_win_winner|].
  split; [reflexivity|]. split; [reflexivity|]. split.
  - intros p d' Hne. rewrite scores_after_win_other by exact Hne.
    destruct (scores_get p sc); [|discriminate]. by intros [= <-].
  - intros p Hne. rewrite scores_after_win_other by exact Hne.
    by destruct (scores_get p sc).
Qed.

(** *** Floats

    Rounding to binary64 keeps the order of the numbers and leaves the
    small integers of the scoring rule as they are. *)

Lemma pow2_pos k : (0 < Py.pow2 k)%Q.
Proof. apply Qpower_0_lt. reflexivity. Qed.

Lemma pow2_add a b : (Py.pow2 (a + b) == Py.pow2 a * Py.pow2 b)%Q.
Proof. apply Qpower_plus. discriminate. Qed.

Lemma pow2_succ a : (Py.pow2 (a + 1) == 2 * Py.pow2 a)%Q.
Proof. rewrite pow2_add. change (Py.pow2 1) with 2%Q. ring. Qed.

Lemma pow2_le a b : a <= b -> (Py.pow2 a <= Py.pow2 b)%Q.
Proof. intros H. apply Qpower_le_compat_l; [exact H|discriminate]. Qed.

Lemma pow2_lt_inv a b : (Py.pow2 a < Py.pow2 b)%Q -> a < b.
Proof. intros H. eapply Qpower_lt_compat_l_inv; [exact H|reflexivity]. Qed.

Lemma pow2_inject k : 0 <= k -> (Py.pow2 k == inject_Z (2 ^ k))%Q.
Proof. intros H. unfold Py.pow2. by rewrite Zpower_Qpower. Qed.

Lemma ilog2_spec x :
  (0 < x)%Q -> (Py.pow2 (Py.ilog2 x) <= x /\ x < Py.pow2 (Py.ilog2 x + 1))%Q.
Proof.
  intros Hx. unfold Py.ilog2.
  destruct x as [n d]. cbn [Qnum Qden].
  assert (Hn : 0 < n) by (unfold Qlt in Hx; cbn in Hx; lia).
  pose proof (Z.log2_spec n Hn) as [Hn1 Hn2].
  pose proof (Z.log2_spec (Z.pos d) eq_refl) as [Hd1 Hd2].
  pose proof (Z.log2_nonneg n) as Hln.
  pose proof (Z.log2_nonneg (Z.pos d)) as Hld.
  set (ln := Z.log2 n) in *. set (ld := Z.log2 (Z.pos d)) in *.
  set (c := ln - ld).
  assert (HA : (Py.pow2 c * inject_Z (2 ^ ld) == inject_Z (2 ^ ln))%Q).
  { rewrite <- !pow2_inject by lia. rewrite <- pow2_add.
    by replace (c + ld) with ln by (subst c; lia). }
  assert (HX : ((n # d) * inject_Z (Z.pos d) == inject_Z n)%Q).
  { unfold Qeq, Qmult, inject_Z. cbn. lia. }
  pose proof (pow2_pos c) as Hc.
  assert (HB0 : (0 < inject_Z (2 ^ ld))%Q).
  { change 0%Q with (inject_Z 0). rewrite <- Zlt_Qlt. lia. }
  assert (HD0 : (0 < inject_Z (Z.pos d))%Q).
  { change 0%Q with (inject_Z 0). by rewrite <- Zlt_Qlt. }
  assert (Hn2' : (inject_Z n < 2 * inject_Z (2 ^ ln))%Q).
  { change 2%Q with (inject_Z 2). rewrite <- inject_Z_mult, <- Zlt_Qlt.
    unfold Z.succ in Hn2. rewrite Z.pow_add_r in Hn2 by lia. lia. }
  assert (Hd2' : (inject_Z (Z.pos d) < 2 * inject_Z (2 ^ ld))%Q).
  { change 2%Q with (inject_Z 2). rewrite <- inject_Z_mult, <- Zlt_Qlt.
    unfold Z.succ in Hd2. rewrite Z.pow_add_r in Hd2 by lia. lia. }
  rewrite Zle_Qle in Hn1, Hd1.
  set (A := inject_Z (2 ^ ln)) in *. set (B := inject_Z (2 ^ ld)) in *.
  set (N := inject_Z n) in *. set (D := inject_Z (Z.pos d)) in *.
  set (X := (n # d)%Q) in *. set (P := Py.pow2 c) in *.
  assert (Hup : (X < 2 * P)%Q).
  { apply Qnot_le_lt. intros Hge.
    assert (2 * P * D <= X * D)%Q by (apply Qmult_le_compat_r; lra).
    assert (P * B <= P * D)%Q by (apply Qmult_le_l; lra).
    lra. }
  assert (Hlo : (P < 2 * X)%Q).
  { apply Qnot_le_lt. intros Hge.
    assert (2 * X * B <= P * B)%Q by (apply Qmult_le_compat_r; lra).
    assert (X * D < X * (2 * B))%Q.
    { apply Qmult_lt_l; [exact Hx|lra]. }
    lra. }
  destruct (Qle_bool P X) eqn:E.
  - apply Qle_bool_iff in E. split; [exact E|]. by rewrite pow2_succ.
  - assert (HXP : (X < P)%Q).
    { apply Qnot_le_lt. intros H%Qle_bool_iff. congruence. }
    replace (c - 1 + 1) with c by lia. split; [|exact HXP].
    assert (Hc1 : (2 * Py.pow2 (c - 1) == P)%Q).
    { rewrite <- pow2_succ. by replace (c - 1 + 1) with c by lia. }
    lra.
Qed.

Lemma ilog2_le x y : (0 < x)%Q -> (x <= y)%Q -> Py.ilog2 x <= Py.ilog2 y.
Proof.
  intros Hx Hxy.
  destruct (ilog2_spec x Hx) as [H1 _].
  destruct (ilog2_spec y) as [_ H2]; [lra|].
  assert (H : (Py.pow2 (Py.ilog2 x) < Py.pow2 (Py.ilog2 y + 1))%Q) by lra.
  apply pow2_lt_inv in H. lia.
Qed.

Lemma rne_floor q : Qfloor q <= Py.rne q <= Qfloor q + 1.
Proof.
  unfold Py.rne. destruct (_ ?= _)%Q; [destruct (Z.even _)|..]; lia.
Qed.

Lemma rne_inject k : Py.rne (inject_Z k) = k.
Proof.
  unfold Py.rne. rewrite Qfloor_Z.
  destruct (Qcompare_spec (inject_Z k - inject_Z k) (1 # 2)) as [H|H|H];
    [lra|reflexivity|lra].
Qed.

Lemma rne_le x y : (x <= y)%Q -> Py.rne x <= Py.rne y.
Proof.
  intros Hxy. pose proof (Qfloor_resp_le x y Hxy) as Hf.
  pose proof (rne_floor x) as Hx. pose proof (rne_floor y) as Hy.
  destruct (Z.eq_dec (Qfloor x) (Qfloor y)) as [E|E]; [|lia].
  unfold Py.rne in *. rewrite <- E in *. clear Hx Hy Hf.
  destruct (Qcompare_spec (x - inject_Z (Qfloor x)) (1 # 2)) as [H1|H1|H1];
    destruct (Qcompare_spec (y - inject_Z (Qfloor x)) (1 # 2)) as [H2|H2|H2];
    try destruct (Z.even (Qfloor x)); try lia; lra.
Qed.

(** The significand of a positive number lies below [2 ^ 53], and from
    [2 ^ 52] on when the number is not subnormal. *)
Lemma binary64_significand a :
  (0 < a)%Q ->
  let e := Z.max (Py.ilog2 a) (-1022) in
  (0 < a * Py.pow2 (52 - e) < inject_Z (2 ^ 53))%Q
  /\ (e = Py.ilog2 a -> inject_Z (2 ^ 52) <= a * Py.pow2 (52 - e))%Q.
Proof.
  intros Ha e. destruct (ilog2_spec a Ha) as [Hlo Hhi].
  pose proof (pow2_pos (52 - e)) as Hp.
  assert (H53 : (Py.pow2 (e + 1) * Py.pow2 (52 - e) == inject_Z (2 ^ 53))%Q).
  { rewrite <- pow2_add. replace (e + 1 + (52 - e)) with 53 by lia.
    by rewrite pow2_inject. }
  assert (H52 : (Py.pow2 e * Py.pow2 (52 - e) == inject_Z (2 ^ 52))%Q).
  { rewrite <- pow2_add. replace (e + (52 - e)) with 52 by lia.
    by rewrite pow2_inject. }
  split; [split|].
  - apply Qmult_lt_0_compat; assumption.
  - rewrite <- H53. apply Qmult_lt_compat_r; [exact Hp|].
    eapply Qlt_le_trans; [exact Hhi|]. apply pow2_le. lia.
  - intros He. rewrite <- H52. apply Qmult_le_compat_r; [|lra].
    by rewrite He.
Qed.

Lemma binary64_pos_le x y :
  (0 < x)%Q -> (x <= y)%Q -> (Py.binary64_pos x <= Py.binary64_pos y)%Q.
Proof.
  intros Hx Hxy. assert (Hy : (0 < y)%Q) by lra.
  pose proof (ilog2_le x y Hx Hxy) as Hlog.
  destruct (binary64_significand x Hx) as [[Hx0 Hx53] _].
  destruct (binary64_significand y Hy) as [[Hy0 _] Hy52].
  unfold Py.binary64_pos. cbn zeta in *.
  set (ex := Z.max (Py.ilog2 x) (-1022)) in *.
  set (ey := Z.max (Py.ilog2 y) (-1022)) in *.
  destruct (Z.eq_dec ex ey) as [E|E].
  - rewrite <- E. apply Qmult_le_compat_r; [|apply Qlt_le_weak, pow2_pos].
    rewrite <- Zle_Qle. apply rne_le.
    apply Qmult_le_compat_r; [exact Hxy|apply Qlt_le_weak, pow2_pos].
  - assert (Hlt : ex < ey) by lia.
    assert (Hey : ey = Py.ilog2 y) by lia.
    specialize (Hy52 Hey).
    assert (Hrx : Py.rne (x * Py.pow2 (52 - ex)) <= 2 ^ 53).
    { rewrite <- (rne_inject (2 ^ 53)). apply rne_le. lra. }
    assert (Hry : 2 ^ 52 <= Py.rne (y * Py.pow2 (52 - ey))).
    { rewrite <- (rne_inject (2 ^ 52)). by apply rne_le. }
    rewrite Zle_Qle in Hrx, Hry.
    pose proof (pow2_pos (ex - 52)) as Hpx.
    pose proof (pow2_pos (ey - 52)) as Hpy.
    assert (H1 : (inject_Z (2 ^ 53) * Py.pow2 (ex - 52)
                  == Py.pow2 (ex + 1))%Q).
    { rewrite <- pow2_inject by lia. rewrite <- pow2_add.
      by replace (53 + (ex - 52)) with (ex + 1) by lia. }
    assert (H2 : (inject_Z (2 ^ 52) * Py.pow2 (ey - 52) == Py.pow2 ey)%Q).
    { rewrite <- pow2_inject by lia. rewrite <- pow2_add.
      by replace (52 + (ey - 52)) with ey by lia. }
    assert (H3 : (Py.pow2 (ex + 1) <= Py.pow2 ey)%Q) by (apply pow2_le; lia).
    assert (H4 : (inject_Z (Py.rne (x * Py.pow2 (52 - ex)))
                  * Py.pow2 (ex - 52)
                  <= inject_Z (2 ^ 53) * Py.pow2 (ex - 52))%Q).
    { apply Qmult_le_compat_r; [exact Hrx|lra]. }
    assert (H5 : (inject_Z (2 ^ 52) * Py.pow2 (ey - 52)
                  <= inject_Z (Py.rne (y * Py.pow2 (52 - ey)))
                     * Py.pow2 (ey - 52))%Q).
    { apply Qmult_le_compat_r; [exact Hry|lra]. }
    lra.
Qed.

Lemma binary64_pos_nonneg x : (0 < x)%Q -> (0 <= Py.binary64_pos x)%Q.
Proof.
  intros Hx. destruct (binary64_significand x Hx) as [[H0 _] _].
  unfold Py.binary64_pos. cbn zeta in *.
  apply Qmult_le_0_compat; [|apply Qlt_le_weak, pow2_pos].
  change 0%Q with (inject_Z 0). rewrite <- Zle_Qle.
  rewrite <- (rne_inject 0). apply rne_le. by apply Qlt_le_weak.
Qed.

Lemma Qnum_sign x :
  match Qnum x with
  | Z0 => (x == 0)%Q
  | Zpos _ => (0 < x)%Q
  | Zneg _ => (x < 0)%Q
  end.
Proof. destruct x as [[|n|n] d]; unfold Qeq, Qlt; cbn; lia. Qed.

(** Rounding is monotone. *)
Lemma binary64_le x y : (x <= y)%Q -> (Py.binary64 x <= Py.binary64 y)%Q.
Proof.
  intros Hxy. unfold Py.binary64.
  pose proof (Qnum_sign x) as Hx. pose proof (Qnum_sign y) as Hy.
  destruct (Qnum x) eqn:Ex, (Qnum y) eqn:Ey; try lra.
  - by apply binary64_pos_nonneg.
  - by apply binary64_pos_le.
  - assert (0 <= Py.binary64_pos (- x))%Q
      by (apply binary64_pos_nonneg; lra).
    lra.
  - assert (0 <= Py.binary64_pos (- x))%Q
      by (apply binary64_pos_nonneg; lra).
    assert (0 <= Py.binary64_pos y)%Q by (by apply binary64_pos_nonneg).
    lra.
  - assert (Py.binary64_pos (- y) <= Py.binary64_pos (- x))%Q
      by (apply binary64_pos_le; lra).
    lra.
Qed.

#[local] Instance binary64_proper : Proper (Qeq ==> Qeq) Py.binary64.
Proof. intros x y Hxy. apply Qle_antisym; apply binary64_le; lra. Qed.

Lemma binary64_0 : (Py.binary64 0 == 0)%Q.
Proof. reflexivity. Qed.

Lemma binary64_1 : (Py.binary64 1 == 1)%Q.
Proof. vm_compute. reflexivity. Qed.

Lemma binary64_20 : (Py.binary64 20 == 20)%Q.
Proof. vm_compute. reflexivity. Qed.

Lemma binary64_50 : (Py.binary64 50 == 50)%Q.
Proof. vm_compute. reflexivity. Qed.

(** The float 0.1 is 3602879701896397 / 2 ^ 55. *)
Lemma binary64_tenth :
  (Py.binary64 (1 # 10) == 3602879701896397 # 36028797018963968)%Q.
Proof. vm_compute. reflexivity. Qed.

(** *** Scoring *)

(** The share of the bonus that is left after [time_taken] seconds, as
    the handler computes it. *)
Definition bonus_factor (time_taken : Q) : Q :=
  Qmax 0 (Py.binary64 (Py.binary64 (20 - time_taken) / 20)).

Lemma bonus_factor_nonneg e : (0 <= bonus_factor e)%Q.
Proof. apply Q.le_max_l. Qed.

Lemma bonus_factor_le e1 e2 :
  (e1 <= e2)%Q -> (bonus_factor e2 <= bonus_factor e1)%Q.
Proof.
  intros Hle. unfold bonus_factor. apply Q.max_le_compat_l.
  apply binary64_le.
  assert (H : (Py.binary64 (20 - e2) <= Py.binary64 (20 - e1))%Q)
    by (apply binary64_le; lra).
  unfold Qdiv. change (/ 20)%Q with (1 # 20)%Q. lra.
Qed.

Lemma bonus_factor_0 : (bonus_factor 0 == 1)%Q.
Proof. vm_compute. reflexivity. Qed.

Lemma bonus_factor_20 : (bonus_factor 20 == 0)%Q.
Proof. vm_compute. reflexivity. Qed.

#[local] Instance bonus_factor_proper : Proper (Qeq ==> Qeq) bonus_factor.
Proof. intros x y Hxy. apply Qle_antisym; apply bonus_factor_le; lra. Qed.

Lemma speed_bonus_floor (e : Q) :
  speed_bonus e = Qfloor (Py.binary64 (50 * bonus_factor e)).
Proof.
  unfold speed_bonus, bonus_factor, Py.max0, Py.int_of_float, Py.mul,
    Py.truediv, Py.sub, DEFAULT_TIMEOUT_PER_Q,
    POINTS_PER_SECOND_SPEED_BONUS_MAX.
  change (inject_Z 20) with 20%Q. change (inject_Z 50) with 50%Q.
  set (x := Py.binary64 (Py.binary64 (20 - e) / 20)).
  destruct (Qle_bool x 0) eqn:Hx.
  - apply Qle_bool_iff in Hx.
    change (Qle_bool 0 (Py.binary64 (50 * 0))) with true. cbn match.
    apply Qfloor_comp. apply binary64_proper.
    rewrite (Q.max_l 0 x Hx). reflexivity.
  - assert (Hpos : (0 < x)%Q).
    { apply Qnot_le_lt. intros H%Qle_bool_iff. congruence. }
    assert (H50 : Qle_bool 0 (Py.binary64 (50 * x)) = true).
    { apply Qle_bool_iff.
      apply (Qle_trans _ (Py.binary64 0)); [by rewrite binary64_0|].
      apply binary64_le. lra. }
    rewrite H50. apply Qfloor_comp. apply binary64_proper.
    rewrite (Q.max_r 0 x) by (by apply Qlt_le_weak). reflexivity.
Qed.

(** C2, as the code has it.  A correct answer given [e] seconds after
    the question started, [e] being the difference of the two clock
    readings as a float, by a player whose streak was [s], earns
    [100 + floor (50 * max 0 ((20 - e) / 20)) + s * 10] points, each
    operation on floats rounding to binary64 and the speed bonus being
    cut down to an integer, and takes the streak to [s + 1]; at [e = 0]
    and [s = 0] that is 150 points and streak 1. *)
Theorem correct_answer_points_and_streak
    group_id user_id first_name text now w l quiz start details sc :
  round_open group_id w l quiz start details sc ->
  Py.int todecimal (Py.strip (Py.decode text)) = Some (q_answer details) ->
  let e := Py.binary64 (now - start) in
  let s := prior_streak user_id sc in
  let earned :=
    100
    + Qfloor
        (Py.binary64
           (50 * Qmax 0 (Py.binary64 (Py.binary64 (20 - e) / 20))))
    + s * 10 in
  exists w' quiz' sc' d,
    handle_text_answer group_id user_id first_name text now w = Returned w'
    /\ outbox w' = outbox w
         ++ [(group_id, CorrectAnswer first_name (q_answer details) earned
                          (prior_points user_id sc + earned))]
    /\ get_quiz group_id w' = Some (l, quiz')
    /\ scores quiz' = Some sc'
    /\ scores_get user_id sc' = Some d
    /\ points d = prior_points user_id sc + earned
    /\ streak d = s + 1
    /\ ((e == 0)%Q -> s = 0 -> earned = 150 /\ streak d = 1).
Proof.
  intros Hopen Hint e s earned.
  pose proof (correct_answer_effect group_id user_id first_name text now
                w l quiz start details sc Hopen Hint) as Heff.
  cbn zeta in Heff.
  assert (Hearned : points_earned (Py.sub now start) (prior_streak user_id sc)
                    = earned).
  { unfold points_earned, streak_bonus, POINTS_CORRECT,
      STREAK_BONUS_PER_LEVEL. rewrite speed_bonus_floor.
    subst earned e s. unfold bonus_factor, Py.sub. lia. }
  rewrite Hearned in Heff.
  eexists _, _, (scores_after_win user_id first_name earned sc), _.
  split; [exact Heff|].
  split; [reflexivity|].
  split; [eapply get_quiz_store; rewrite get_quiz_send_message;
          apply (open_quiz _ _ _ _ _ _ _ Hopen)|].
  split; [by rewrite fire_event_scores|].
  split; [apply scores_after_win_winner|].
  split; [reflexivity|]. split; [reflexivity|].
  intros He Hs. cbn [streak]. fold s. rewrite Hs. split; [|reflexivity].
  subst earned. rewrite Hs. fold (bonus_factor e).
  assert (Hb : Qfloor (Py.binary64 (50 * bonus_factor e)) = 50).
  { transitivity (Qfloor 50); [|reflexivity].
    apply Qfloor_comp. rewrite He, bonus_factor_0.
    vm_compute. reflexivity. }
  rewrite Hb. reflexivity.
Qed.

(** *** The leaderboard *)

Section SortedDesc.
Context {A : Type} (key : A -> Z).

Definition ranks_before (a b : A) : Prop := key b <= key a.

Lemma insert_desc_perm x l : Permutation (x :: l) (Py.insert_desc key x l).
Proof.
  induction l as [|y l IH]; cbn; [reflexivity|].
  destruct (key y <=? key x); [reflexivity|].
  rewrite perm_swap. by constructor.
Qed.

Lemma sorted_desc_perm l : Permutation l (Py.sorted_desc key l).
Proof.
  induction l as [|x l IH]; cbn; [reflexivity|].
  rewrite <- insert_desc_perm. by constructor.
Qed.

Lemma insert_desc_sorted x l :
  StronglySorted ranks_before l ->
  StronglySorted ranks_before (Py.insert_desc key x l).
Proof.
  induction 1 as [|y l Hl IH Hy]; cbn.
  - repeat constructor.
  - destruct (key y <=? key x) eqn:E.
    + apply Z.leb_le in E. constructor; [by constructor|].
      constructor; [exact E|].
      eapply Forall_impl; [exact Hy|].
      unfold ranks_before. intros z Hz. cbn in Hz. lia.
    + apply Z.leb_gt in E. constructor; [exact IH|].
      rewrite <- insert_desc_perm. constructor; [|exact Hy].
      unfold ranks_before. lia.
Qed.

Lemma sorted_desc_sorted l :
  StronglySorted ranks_before (Py.sorted_desc key l).
Proof.
  induction l as [|x l IH]; cbn; [constructor|].
  by apply insert_desc_sorted.
Qed.

(** Stability: the elements of one key come out in the order they
    went in. *)
Lemma insert_desc_stable p x l :
  List.filter (fun e => key e =? p) (Py.insert_desc key x l)
  = List.filter (fun e => key e =? p) (x :: l).
Proof.
  induction l as [|y l IH]; [reflexivity|]. cbn [Py.insert_desc].
  destruct (key y <=? key x) eqn:E; [reflexivity|].
  apply Z.leb_gt in E. cbn [List.filter] in *. rewrite IH.
  destruct (key x =? p) eqn:Hx; [|reflexivity].
  apply Z.eqb_eq in Hx.
  assert ((key y =? p) = false) as -> by (apply Z.eqb_neq; lia).
  reflexivity.
Qed.

Lemma sorted_desc_stable p l :
  List.filter (fun e => key e =? p) (Py.sorted_desc key l)
  = List.filter (fun e => key e =? p) l.
Proof.
  induction l as [|x l IH]; [reflexivity|]. cbn [Py.sorted_desc].
  rewrite insert_desc_stable. cbn [List.filter]. by rewrite IH.
Qed.
End SortedDesc.

Lemma render_rows_length i l : length (render_rows i l) = length l.
Proof.
  revert i. induction l as [|[k d] l IH]; intros i; cbn; [reflexivity|].
  by rewrite IH.
Qed.

Lemma render_rows_username i l :
  map row_username (render_rows i l) = map (fun e => username (snd e)) l.
Proof.
  revert i. induction l as [|[k d] l IH]; intros i; cbn; [reflexivity|].
  by rewrite IH.
Qed.

Lemma render_rows_points i l :
  map row_points (render_rows i l) = map (fun e => points (snd e)) l.
Proof.
  revert i. induction l as [|[k d] l IH]; intros i; cbn; [reflexivity|].
  by rewrite IH.
Qed.

Lemma render_rows_place i l :
  map place (render_rows i l) = seqZ i (Z.of_nat (length l)).
Proof.
  revert i. induction l as [|[k d] l IH]; intros i; [reflexivity|].
  cbn [render_rows map place length]. rewrite IH.
  rewrite (seqZ_cons i (Z.of_nat (S (length l)))); [|lia].
  f_equal. f_equal; lia.
Qed.

(** C6.  For scores that are not empty the leaderboard message lists the
    players by points, highest first, players with the same points in
    the order their entries were created, and shows no more than the
    first ten, numbered from 1. *)
Theorem leaderboard_sorted_stable_top_ten
    group_id mid_quiz final w l quiz sc :
  get_quiz group_id w = Some (l, quiz) ->
  scores quiz = Some sc ->
  sc <> [] ->
  exists ranked rows rest,
    outbox (show_leaderboard group_id mid_quiz final w)
    = outbox w ++ (group_id, Leaderboard mid_quiz rows false) :: rest
    /\ Permutation sc ranked
    /\ StronglySorted (fun a b => points (snd b) <= points (snd a)) ranked
    /\ (forall p,
          List.filter (fun e => points (snd e) =? p) ranked
          = List.filter (fun e => points (snd e) =? p) sc)
    /\ map row_username rows
       = map (fun e => username (snd e)) (firstn 10 ranked)
    /\ map row_points rows = map (fun e => points (snd e)) (firstn 10 ranked)
    /\ map place rows = seqZ 1 (Z.of_nat (length rows))
    /\ length rows = Nat.min 10 (length sc).
Proof.
  intros Hq Hsc Hne.
  remember (Py.sorted_desc (fun item : Z * player => points (snd item)) sc)
    as ranked eqn:Hranked.
  assert (Hperm : Permutation sc ranked)
    by (subst ranked; apply sorted_desc_perm).
  exists ranked, (render_rows 1 (firstn 10 ranked)),
    (match ranked with
     | (_, first) :: _ =>
         if final
         then [(group_id,
                Congratulations (username first)
                  (choice CHEERING_QUOTES "" (rng w)))]
         else []
     | [] => []
     end).
  split.
  - unfold show_leaderboard. rewrite Hq, Hsc.
    destruct sc as [|e sc']; [contradiction|].
    rewrite <- Hranked.
    destruct ranked as [|[k first] ranked'].
    { apply Permutation_nil_r in Hperm. discriminate. }
    destruct final; cbn; [|reflexivity].
    rewrite <- app_assoc. reflexivity.
  - split; [exact Hperm|].
    split; [subst ranked; apply sorted_desc_sorted|].
    split; [intros p; subst ranked; apply sorted_desc_stable|].
    split; [apply render_rows_username|].
    split; [apply render_rows_points|].
    split; [by rewrite render_rows_place, render_rows_length|].
    rewrite render_rows_length, length_firstn.
    by rewrite (Permutation_length Hperm).
Qed.

(** [show_leaderboard] only sends: the quiz objects and the registry
    stay as they are, and what it sends closes no round. *)
Lemma show_leaderboard_frame group_id mid_quiz final w :
  let w' := show_leaderboard group_id mid_quiz final w in
  heap w' = heap w /\ quizzes w' = quizzes w
  /\ exists sent, outbox w' = outbox w ++ sent
       /\ List.filter is_correct_answer sent = []
       /\ List.filter is_times_up sent = [].
Proof.
  unfold show_leaderboard.
  assert (Hnone :
    let w' := if final then send_message group_id EndedWithoutScores w
              else w in
    heap w' = heap w /\ quizzes w' = quizzes w
    /\ exists sent, outbox w' = outbox w ++ sent
         /\ List.filter is_correct_answer sent = []
         /\ List.filter is_times_up sent = []).
  { destruct final; cbn.
    - do 2 (split; [reflexivity|]). by eexists [_].
    - do 2 (split; [reflexivity|]). exists []. by rewrite app_nil_r. }
  destruct (get_quiz group_id w) as [[l quiz]|]; [|exact Hnone].
  destruct (scores quiz) as [[|e sc]|]; [exact Hnone| |exact Hnone].
  destruct (Py.sorted_desc _ (e :: sc)) as [|[k first] ranked]; cbn.
  - do 2 (split; [reflexivity|]). by eexists [_].
  - destruct final; cbn.
    + do 2 (split; [reflexivity|]). rewrite <- app_assoc. by eexists [_; _].
    + do 2 (split; [reflexivity|]). by eexists [_].
Qed.

(** The chat has no quiz, or its quiz has no scores yet. *)
Definition nothing_to_rank (group_id : Z) (w : world) : bool :=
  match get_quiz group_id w with
  | Some (_, quiz) =>
      match scores quiz with
      | Some (_ :: _) => false
      | _ => true
      end
  | None => true
  end.

(** C8, as the code has it.  Without scores no ranking is sent.  The
    final leaderboard sends the notice that the quiz ended without
    scores in its place; the leaderboard between two rounds sends
    nothing. *)
Theorem leaderboard_without_scores group_id mid_quiz w :
  nothing_to_rank group_id w = true ->
  show_leaderboard group_id mid_quiz false w = w
  /\ show_leaderboard group_id mid_quiz true w
     = send_message group_id EndedWithoutScores w.
Proof.
  unfold nothing_to_rank, show_leaderboard.
  destruct (get_quiz group_id w) as [[l quiz]|]; [|by split].
  destruct (scores quiz) as [[|e sc]|]; [by split|discriminate|by split].
Qed.

(** *** Setup *)

Lemma generate_questions_length d n k :
  length (generate_questions d n k).1 = n.
Proof.
  revert k. induction n as [|n IH]; intros k; [reflexivity|].
  cbn [generate_questions].
  destruct (generate_math_question d k) as [q k1].
  specialize (IH k1). destruct (generate_questions d n k1) as [qs k2].
  cbn in *. by rewrite IH.
Qed.

(** C7.  The host's choice of a question count, made after the
    difficulty was chosen, makes the session active with exactly that
    many questions already generated and the round index at -1; nothing
    of a round has happened yet, and the coordinator will start from
    round 0. *)
Theorem question_count_choice_activates
    group_id user_id data prefix value n w l quiz d :
  get_quiz group_id w = Some (l, quiz) ->
  user_id = host_id quiz ->
  status quiz = "configuring"%string ->
  difficulty (config quiz) = Some d ->
  Py.split ":" data = [prefix; "questions"; value]%string ->
  Py.int todecimal (Py.decode value) = Some n ->
  0 <= n ->
  exists w' quiz' qs,
    handle_config_callback group_id user_id data w = Returned w'
    /\ get_quiz group_id w' = Some (l, quiz')
    /\ status quiz' = "active"%string
    /\ active quiz' = true
    /\ num_questions (config quiz') = Some n
    /\ questions_data quiz' = Some qs
    /\ Z.of_nat (length qs) = n
    /\ current_q_index quiz' = Some (-1)
    /\ q_start_time quiz' = q_start_time quiz
    /\ current_question_details quiz' = current_question_details quiz
    /\ outbox w' = outbox w ++ [(group_id, SetupComplete d n)]
    /\ run_quiz_loop group_id w' = (Returned w', Iteration l n 0).
Proof.
  intros Hq -> Hst Hd Hsplit Hint Hn.
  unfold handle_config_callback.
  rewrite Hq, Z.eqb_refl, Hst, Hsplit. cbn [negb String.eqb Ascii.eqb].
  change (String.eqb "questions" "cancel") with false.
  change (String.eqb "questions" "difficulty") with false.
  change (String.eqb "questions" "questions") with true.
  change (String.eqb "configuring" "configuring") with true.
  cbn [negb]. rewrite Hint. cbn [difficulty config set_config]. rewrite Hd.
  pose proof (generate_questions_length d (Z.to_nat n) (rng w)) as Hlen.
  destruct (generate_questions d (Z.to_nat n) (rng w)) as [qs k].
  cbn [fst] in Hlen.
  eexists _, _, qs. split; [reflexivity|].
  assert (Hq' : get_quiz group_id
            (send_message group_id (SetupComplete d n)
               (with_rng k
                  (store l
                     (activate qs
                        (set_config {| difficulty := Some d;
                                       num_questions := Some n |} quiz)) w)))
          = Some (l, activate qs
                       (set_config {| difficulty := Some d;
                                      num_questions := Some n |} quiz))).
  { apply get_quiz_Some in Hq as [Hr _]. apply get_quiz_Some.
    split; [exact Hr|]. cbn. apply lookup_insert_eq. }
  split; [exact Hq'|].
  do 3 (split; [reflexivity|]). split; [reflexivity|].
  split; [lia|]. do 4 (split; [reflexivity|]).
  unfold run_quiz_loop. rewrite Hq'. reflexivity.
Qed.

(** C5, as the code has it.  [quiz_command] refuses only while the
    quiz of the chat is active: then nothing but the refusal happens.
    In every other case, a session that is still being configured
    included, the chat gets a fresh configuring session owned by the
    caller.  The sessions of other chats and the quiz objects that
    exist are never touched. *)
Theorem quiz_command_refuses_only_active
    group_id user_id first_name message_id w :
  let w' := quiz_command group_id user_id first_name message_id w in
  (forall g, g <> group_id -> quizzes w' !! g = quizzes w !! g)
  /\ (forall l q, heap w !! l = Some q -> heap w' !! l = Some q)
  /\ match get_quiz group_id w with
     | Some (_, quiz) =>
         if active quiz
         then heap w' = heap w /\ quizzes w' = quizzes w
              /\ outbox w' = outbox w ++ [(group_id, AlreadyRunning)]
         else exists l',
              heap w !! l' = None
              /\ get_quiz group_id w'
                 = Some (l', set_setup_message_id (Some message_id)
                               (new_quiz user_id))
              /\ outbox w' = outbox w ++ [(group_id, SetupWelcome first_name)]
     | None =>
         exists l',
           heap w !! l' = None
           /\ get_quiz group_id w'
              = Some (l', set_setup_message_id (Some message_id)
                            (new_quiz user_id))
           /\ outbox w' = outbox w ++ [(group_id, SetupWelcome first_name)]
     end.
Proof.
  assert (Hfresh : heap w !! fresh (dom (heap w)) = None).
  { apply not_elem_of_dom. apply is_fresh. }
  assert (Hstart :
    let w' := start_setup group_id user_id first_name message_id w in
    (forall g, g <> group_id -> quizzes w' !! g = quizzes w !! g)
    /\ (forall l q, heap w !! l = Some q -> heap w' !! l = Some q)
    /\ exists l',
         heap w !! l' = None
         /\ get_quiz group_id w'
            = Some (l', set_setup_message_id (Some message_id)
                          (new_quiz user_id))
         /\ outbox w' = outbox w ++ [(group_id, SetupWelcome first_name)]).
  { cbn zeta. unfold start_setup. split; [|split].
    - intros g Hg. cbn. by rewrite lookup_insert_ne.
    - intros l q Hl. cbn.
      assert (fresh (dom (heap w)) <> l) by congruence.
      by rewrite !lookup_insert_ne.
    - exists (fresh (dom (heap w))). split; [exact Hfresh|].
      split; [|reflexivity].
      apply get_quiz_Some. cbn. by rewrite !lookup_insert_eq. }
  cbn zeta in *. unfold quiz_command.
  destruct (get_quiz group_id w) as [[l quiz]|]; [|exact Hstart].
  destruct (active quiz).
  - split; [reflexivity|]. split; [by intros|]. by repeat split.
  - exact Hstart.
Qed.

(** C10.  In a private chat [_is_admin] says yes for every user, so
    there anybody who sends the stop command ends the quiz: it is
    marked stopped, announced as stopped by that user, and leaves the
    registry. *)
Theorem private_chat_anyone_stops
    group_id user_id first_name w l quiz :
  get_quiz group_id w = Some (l, quiz) ->
  _is_admin "private" group_id user_id = true
  /\ let w' := stop_quiz group_id user_id first_name "private" w in
     quizzes w' !! group_id = None
     /\ (exists quiz', heap w' !! l = Some quiz'
           /\ active quiz' = false /\ status quiz' = "stopped"%string)
     /\ exists rest,
          outbox w' = outbox w ++ (group_id, QuizStopped first_name) :: rest.
Proof.
  intros Hq. split; [reflexivity|]. cbn zeta. unfold stop_quiz.
  rewrite Hq. change (_is_admin "private" group_id user_id) with true.
  rewrite andb_false_r.
  set (quiz1 := fire_event (set_status "stopped" (set_active false quiz))).
  set (w1 := send_message group_id (QuizStopped first_name) (store l quiz1 w)).
  assert (Hframe : forall w2,
    heap w2 = heap w1 -> quizzes w2 = quizzes w1 ->
    (exists sent, outbox w2 = outbox w1 ++ sent) ->
    quizzes (del_quiz group_id w2) !! group_id = None
    /\ (exists quiz', heap (del_quiz group_id w2) !! l = Some quiz'
          /\ active quiz' = false /\ status quiz' = "stopped"%string)
    /\ exists rest,
         outbox (del_quiz group_id w2)
         = outbox w ++ (group_id, QuizStopped first_name) :: rest).
  { intros w2 Hh Hr [sent Ho]. split; [cbn; apply lookup_delete_eq|]. split.
    - exists quiz1. cbn. rewrite Hh. cbn. rewrite lookup_insert_eq.
      split; [reflexivity|]. subst quiz1. unfold fire_event.
      by destruct (current_question_event _).
    - exists sent. cbn. rewrite Ho. cbn. by rewrite <- app_assoc. }
  destruct (scores quiz1) as [[|e sc]|].
  - apply Hframe; [reflexivity..|]. exists []. by rewrite app_nil_r.
  - pose proof (show_leaderboard_frame group_id false true w1)
      as (Hh & Hr & sent & Ho & _).
    apply Hframe; [exact Hh|exact Hr|]. by exists sent.
  - apply Hframe; [reflexivity..|]. exists []. by rewrite app_nil_r.
Qed.

(** *** Rounds: timeout, answer and stop *)

Lemma round_open_frame group_id w w' l quiz start details sc :
  heap w' = heap w -> quizzes w' = quizzes w ->
  round_open group_id w l quiz start details sc ->
  round_open group_id w' l quiz start details sc.
Proof.
  intros Hh Hr [Hq ? ? ? ? ?]. split; try assumption.
  unfold get_quiz in *. by rewrite Hh, Hr.
Qed.

(** The timeout watcher of the current, unanswered round. *)
Lemma timeout_effect group_id i w l quiz start details sc :
  round_open group_id w l quiz start details sc ->
  current_q_index quiz = Some i ->
  end_question_by_timeout group_id i w
  = Returned
      (store l (fire_event (set_scores (Some (reset_all_streaks sc)) quiz))
         (send_message group_id (TimesUp (q_answer details)) w)).
Proof.
  intros [Hq Hact Hun Hst Hdet Hsc] Hi. unfold end_question_by_timeout.
  rewrite Hq, Hact, Hi, Z.eqb_refl, Hun, Hsc. cbn [negb].
  cbn [current_question_details set_scores]. by rewrite Hdet.
Qed.

(** After it the guard of [handle_text_answer] is met as before. *)
Lemma round_open_after_timeout group_id i w l quiz start details sc :
  round_open group_id w l quiz start details sc ->
  current_q_index quiz = Some i ->
  round_open group_id (world_of (end_question_by_timeout group_id i w)) l
    (fire_event (set_scores (Some (reset_all_streaks sc)) quiz))
    start details (reset_all_streaks sc).
Proof.
  intros Hopen Hi. rewrite (timeout_effect _ _ _ _ _ _ _ _ Hopen Hi).
  destruct Hopen as [Hq Hact Hun Hst Hdet Hsc]. cbn [world_of]. split.
  - eapply get_quiz_store. rewrite get_quiz_send_message. exact Hq.
  - by rewrite fire_event_active.
  - by rewrite fire_event_first_answerer_id.
  - unfold q_start_time_truthy, fire_event in *.
    by destruct (current_question_event _).
  - unfold fire_event. by destruct (current_question_event _).
  - by rewrite fire_event_scores.
Qed.

Lemma loop_resume_frame group_id l n i w :
  let w' := (loop_resume group_id l n i w).1 in
  heap w' = heap w /\ quizzes w' = quizzes w
  /\ exists sent, outbox w' = outbox w ++ sent
       /\ List.filter is_correct_answer sent = []
       /\ List.filter is_times_up sent = [].
Proof.
  assert (Hid : heap w = heap w /\ quizzes w = quizzes w
    /\ exists sent, outbox w = outbox w ++ sent
         /\ List.filter is_correct_answer sent = []
         /\ List.filter is_times_up sent = []).
  { do 2 (split; [reflexivity|]). exists []. by rewrite app_nil_r. }
  cbn zeta. unfold loop_resume.
  destruct (heap w !! l) as [quiz|]; [|exact Hid].
  destruct (active quiz); cbn [negb fst]; [|exact Hid].
  destruct (i <? n - 1); [|exact Hid]. cbn [fst].
  pose proof (show_leaderboard_frame group_id true false w)
    as (Hh & Hr & sent & Ho & Hc & Ht).
  cbn. split; [exact Hh|]. split; [exact Hr|].
  exists (sent ++ [(group_id, NextQuestionSoon)]).
  rewrite Ho, <- app_assoc, !List.filter_app, Hc, Ht. by repeat split.
Qed.

Lemma prior_streak_reset_all user_id sc :
  prior_streak user_id (reset_all_streaks sc) = 0.
Proof.
  unfold prior_streak. rewrite scores_get_reset_all_streaks.
  by destruct (scores_get user_id sc).
Qed.

Lemma prior_points_reset_all user_id sc :
  prior_points user_id (reset_all_streaks sc) = prior_points user_id sc.
Proof.
  unfold prior_points. rewrite scores_get_reset_all_streaks.
  by destruct (scores_get user_id sc).
Qed.

(** C9.  When the timeout has closed round [i] with "time's up" and the
    coordinator has moved on to the pause before the next round, a
    correct answer to the question of round [i] is still taken: it
    locks the round for its sender, is announced, and is scored on top
    of the streak 0 the timeout left behind. *)
Theorem answer_accepted_after_timeout
    group_id i n user_id first_name text now w l quiz start details sc :
  round_open group_id w l quiz start details sc ->
  current_q_index quiz = Some i ->
  Py.int todecimal (Py.strip (Py.decode text)) = Some (q_answer details) ->
  let w1 := world_of (end_question_by_timeout group_id i w) in
  let w2 := (loop_resume group_id l n i w1).1 in
  let earned := points_earned (Py.sub now start) 0 in
  outbox w1 = outbox w ++ [(group_id, TimesUp (q_answer details))]
  /\ exists w3 quiz' sc' d,
       handle_text_answer group_id user_id first_name text now w2
       = Returned w3
       /\ outbox w3 = outbox w2
            ++ [(group_id, CorrectAnswer first_name (q_answer details) earned
                             (prior_points user_id sc + earned))]
       /\ get_quiz group_id w3 = Some (l, quiz')
       /\ current_q_index quiz' = Some i
       /\ first_answerer_id quiz' = Some user_id
       /\ scores quiz' = Some sc'
       /\ scores_get user_id sc' = Some d
       /\ streak d = 1
       /\ points d = prior_points user_id sc + earned.
Proof.
  intros Hopen Hi Hint w1 w2 earned.
  pose proof (round_open_after_timeout _ _ _ _ _ _ _ _ Hopen Hi) as Hopen1.
  fold w1 in Hopen1.
  split.
  { subst w1. by rewrite (timeout_effect _ _ _ _ _ _ _ _ Hopen Hi). }
  pose proof (loop_resume_frame group_id l n i w1) as (Hh & Hr & _).
  fold w2 in Hh, Hr.
  pose proof (round_open_frame _ _ _ _ _ _ _ _ Hh Hr Hopen1) as Hopen2.
  pose proof (correct_answer_effect group_id user_id first_name text now
                w2 l _ start details _ Hopen2 Hint) as Heff.
  cbn zeta in Heff.
  rewrite prior_streak_reset_all, prior_points_reset_all in Heff.
  fold earned in Heff.
  eexists _, _, _, _. split; [exact Heff|].
  split; [reflexivity|].
  split; [eapply get_quiz_store; rewrite get_quiz_send_message;
          apply (open_quiz _ _ _ _ _ _ _ Hopen2)|].
  split.
  { unfold fire_event, set_scores, set_first_answerer_id.
    cbn. destruct (current_question_event quiz); cbn; exact Hi. }
  split; [by rewrite fire_event_first_answerer_id|].
  split; [by rewrite fire_event_scores|].
  split; [apply scores_after_win_winner|].
  cbn [streak points]. rewrite prior_streak_reset_all, prior_points_reset_all.
  by split.
Qed.














(** ** Further properties of the handlers *)

(** *** Generated questions *)

Lemma randint_bounds a b k : a <= b -> a <= randint a b k <= b.
Proof.
  intros Hab. unfold randint.
  pose proof (Z.mod_pos_bound (Z.of_nat (entropy k)) (b - a + 1)). lia.
Qed.

(** A question over operands from [lo .. hi]: its answer is the value of
    its expression read from left to right, and so lies between
    [lo - 2 * hi] and [3 * hi]. *)
Definition question_within (lo hi : Z) (difficulty : string) (q : question)
  : Prop :=
  let '(a, b, c) := nums (q_text q) in
  let '(o1, o2) := ops (q_text q) in
  (lo <= a <= hi /\ lo <= b <= hi /\ lo <= c <= hi)
  /\ q_answer q = apply_op o2 (apply_op o1 a b) c
  /\ lo - 2 * hi <= q_answer q <= 3 * hi
  /\ q_type q = "math_text"%string
  /\ q_difficulty q = difficulty.

Lemma generate_math_question_within lo hi d k :
  (if String.eqb d "easy" then (1, 25)
   else if String.eqb d "medium" then (10, 75) else (20, 150)) = (lo, hi) ->
  0 <= lo <= hi ->
  question_within lo hi d (generate_math_question d k).1.
Proof.
  clear get_chat_member.
  intros Hrange [Hlo Hle]. unfold generate_math_question. rewrite Hrange.
  unfold question_within.
  cbn [fst nums ops q_text q_answer q_type q_difficulty eval].
  pose proof (randint_bounds lo hi k Hle).
  pose proof (randint_bounds lo hi (k + 1) Hle).
  pose proof (randint_bounds lo hi (k + 2) Hle).
  split; [tauto|]. split; [reflexivity|].
  split; [|by split].
  destruct (choice [Plus; Minus] Plus (k + 3)%nat),
    (choice [Plus; Minus] Plus (k + 4)%nat); cbn [apply_op]; lia.
Qed.

Lemma generate_questions_within lo hi d n k :
  (if String.eqb d "easy" then (1, 25)
   else if String.eqb d "medium" then (10, 75) else (20, 150)) = (lo, hi) ->
  0 <= lo <= hi ->
  Forall (question_within lo hi d) (generate_questions d n k).1.
Proof.
  intros Hrange Hle. revert k. induction n as [|n IH]; intros k.
  - constructor.
  - cbn [generate_questions].
    pose proof (generate_math_question_within lo hi d k Hrange Hle) as Hq.
    destruct (generate_math_question d k) as [q k1].
    specialize (IH k1). destruct (generate_questions d n k1) as [qs k2].
    cbn in *. by constructor.
Qed.

(** X1.  Every question of a generated list has its three operands in
    the range of the difficulty (1..25 for easy, 10..75 for medium,
    20..150 for anything else), an answer equal to its expression taken
    from left to right, hence between [lo - 2 * hi] and [3 * hi], and
    carries the difficulty it was asked for. *)
Theorem generated_questions_in_range d n k :
  Forall (question_within 1 25 "easy") (generate_questions "easy" n k).1
  /\ Forall (question_within 10 75 "medium")
       (generate_questions "medium" n k).1
  /\ (d <> "easy"%string -> d <> "medium"%string ->
      Forall (question_within 20 150 d) (generate_questions d n k).1).
Proof.
  split; [apply generate_questions_within; [reflexivity|lia]|].
  split; [apply generate_questions_within; [reflexivity|lia]|].
  intros He%String.eqb_neq Hm%String.eqb_neq.
  apply generate_questions_within; [by rewrite He, Hm|lia].
Qed.

(** *** The speed bonus *)

(** X2.  The speed bonus never grows with the time taken: of two correct
    answers the later one gets at most the bonus of the earlier one. *)
Theorem speed_bonus_decreasing (e1 e2 : Q) :
  (e1 <= e2)%Q -> speed_bonus e2 <= speed_bonus e1.
Proof.
  intros Hle. rewrite !speed_bonus_floor.
  apply Qfloor_resp_le, binary64_le.
  pose proof (bonus_factor_le e1 e2 Hle). lra.
Qed.

Lemma speed_bonus_bounds (e : Q) :
  0 <= speed_bonus e
  /\ ((0 <= e)%Q -> speed_bonus e <= 50)
  /\ ((20 <= e)%Q -> speed_bonus e = 0).
Proof.
  rewrite speed_bonus_floor.
  pose proof (bonus_factor_nonneg e) as H0.
  split; [|split].
  - apply (Qfloor_resp_le 0).
    apply (Qle_trans _ (Py.binary64 0)); [by rewrite binary64_0|].
    apply binary64_le. lra.
  - intros He. apply (Qfloor_resp_le _ 50).
    apply (Qle_trans _ (Py.binary64 50)); [|by rewrite binary64_50].
    apply binary64_le.
    pose proof (bonus_factor_le 0 e He) as H1.
    rewrite bonus_factor_0 in H1. lra.
  - intros He. apply (Qfloor_comp _ 0).
    transitivity (Py.binary64 0); [|apply binary64_0].
    apply binary64_proper.
    pose proof (bonus_factor_le 20 e He) as H1.
    rewrite bonus_factor_20 in H1. lra.
Qed.

(** The time taken, as the handler measures it, is on the side of zero
    and of twenty that the clock readings are on. *)
Lemma time_taken_bounds now start :
  ((start <= now)%Q -> (0 <= Py.sub now start)%Q)
  /\ ((start + 20 <= now)%Q -> (20 <= Py.sub now start)%Q).
Proof.
  unfold Py.sub. split; intros H.
  - apply (Qle_trans _ (Py.binary64 0)); [by rewrite binary64_0|].
    apply binary64_le. lra.
  - apply (Qle_trans _ (Py.binary64 20)); [by rewrite binary64_20|].
    apply binary64_le. lra.
Qed.

(** X3.  A correct answer given no earlier than the question earns
    between [100 + 10 * s] and [150 + 10 * s] points, [s] being the
    winner's streak before; given 20 seconds or more after the question
    it earns exactly [100 + 10 * s]. *)
Theorem correct_answer_points_bounds
    group_id user_id first_name text now w l quiz start details sc :
  round_open group_id w l quiz start details sc ->
  Py.int todecimal (Py.strip (Py.decode text)) = Some (q_answer details) ->
  (start <= now)%Q ->
  let s := prior_streak user_id sc in
  exists w' earned total,
    handle_text_answer group_id user_id first_name text now w = Returned w'
    /\ outbox w' = outbox w
         ++ [(group_id,
              CorrectAnswer first_name (q_answer details) earned total)]
    /\ total = prior_points user_id sc + earned
    /\ 100 + 10 * s <= earned <= 150 + 10 * s
    /\ ((start + 20 <= now)%Q -> earned = 100 + 10 * s).
Proof.
  intros Hopen Hint Hnow s.
  pose proof (correct_answer_effect group_id user_id first_name text now
                w l quiz start details sc Hopen Hint) as Heff.
  cbn zeta in Heff.
  eexists _, _, _. split; [exact Heff|]. split; [reflexivity|].
  split; [reflexivity|].
  pose proof (speed_bonus_bounds (Py.sub now start)) as (H0 & H50 & H20).
  pose proof (time_taken_bounds now start) as [Ht0 Ht20].
  unfold points_earned, streak_bonus, POINTS_CORRECT, STREAK_BONUS_PER_LEVEL.
  fold s. split.
  - assert (speed_bonus (Py.sub now start) <= 50) by (apply H50; auto). lia.
  - intros Hlate. rewrite H20 by auto. lia.
Qed.

(** *** Who may stop a quiz, and what stopping sends *)

Lemma _is_admin_true chat_type chat_id user_id :
  _is_admin chat_type chat_id user_id = true <->
  chat_type = "private"%string
  \/ get_chat_member chat_id user_id = Some ADMINISTRATOR
  \/ get_chat_member chat_id user_id = Some OWNER.
Proof.
  clear entropy.
  unfold _is_admin. destruct (String.eqb chat_type "private") eqn:E.
  - apply String.eqb_eq in E. tauto.
  - apply String.eqb_neq in E.
    destruct (get_chat_member chat_id user_id) as [[]|]; split;
      try tauto; try discriminate;
      intros [?|[?|?]]; try contradiction; discriminate.
Qed.

(** X4.  The stop command on a chat with a quiz goes through exactly for
    the host, for anybody in a private chat, and for a user the platform
    reports as administrator or owner; then the quiz is marked stopped
    and inactive, its event fired, and it leaves the registry.  For
    everybody else, a failed membership lookup included, the only effect
    is the refusal. *)
Theorem stop_quiz_authorisation
    group_id user_id first_name chat_type w l quiz :
  get_quiz group_id w = Some (l, quiz) ->
  let w' := stop_quiz group_id user_id first_name chat_type w in
  let permitted :=
    user_id = host_id quiz
    \/ chat_type = "private"%string
    \/ get_chat_member group_id user_id = Some ADMINISTRATOR
    \/ get_chat_member group_id user_id = Some OWNER in
  (permitted ->
   quizzes w' !! group_id = None
   /\ heap w' !! l
      = Some (fire_event (set_status "stopped" (set_active false quiz))))
  /\ (~ permitted -> w' = send_message group_id OnlyHostOrAdmin w).
Proof.
  intros Hq. cbn zeta. unfold stop_quiz. rewrite Hq. split.
  - intros Hperm.
    assert (negb (user_id =? host_id quiz)
            && negb (_is_admin chat_type group_id user_id) = false) as ->.
    { destruct Hperm as [-> | Hadm]; [by rewrite Z.eqb_refl|].
      apply _is_admin_true in Hadm. rewrite Hadm. apply andb_false_r. }
    split; [cbn; apply lookup_delete_eq|].
    set (quiz1 := fire_event _).
    set (w1 := send_message _ _ _).
    assert (Hw1 : heap w1 !! l = Some quiz1) by (cbn; apply lookup_insert_eq).
    destruct (scores quiz1) as [[|e sc]|]; try exact Hw1.
    pose proof (show_leaderboard_frame group_id false true w1) as (Hh & _).
    cbn. rewrite Hh. exact Hw1.
  - intros Hnot.
    assert (negb (user_id =? host_id quiz)
            && negb (_is_admin chat_type group_id user_id) = true) as ->;
      [|reflexivity].
    apply andb_true_iff. split; apply negb_true_iff.
    + apply Z.eqb_neq. tauto.
    + destruct (_is_admin chat_type group_id user_id) eqn:E; [|reflexivity].
      apply _is_admin_true in E. tauto.
Qed.





(** *** The setup buttons *)

Definition host_of (group_id : Z) (w : world) : option Z :=
  match get_quiz group_id w with
  | Some (_, quiz) => Some (host_id quiz)
  | None => None
  end.

Definition status_of (group_id : Z) (w : world) : option string :=
  match get_quiz group_id w with
  | Some (_, quiz) => Some (status quiz)
  | None => None
  end.

(** X7.  A press on a setup button counts only when it comes from the
    host of a quiz that is still being configured.  From anybody else,
    or for a chat without a quiz, it earns a notice sent to the presser;
    from the host of a quiz past configuration it earns a notice in the
    chat.  Either way no quiz, no registry entry and no random draw is
    touched, whatever the button says. *)
Theorem setup_button_not_honoured group_id user_id data w :
  (host_of group_id w <> Some user_id ->
   handle_config_callback group_id user_id data w
   = Returned (send_message user_id OnlyStarterCanConfigure w))
  /\ (host_of group_id w = Some user_id ->
      status_of group_id w <> Some "configuring"%string ->
      handle_config_callback group_id user_id data w
      = Returned (send_message group_id ConfigurationAlreadyComplete w)).
Proof.
  unfold host_of, status_of, handle_config_callback.
  destruct (get_quiz group_id w) as [[l quiz]|]; [|by split].
  split.
  - intros Hne.
    assert ((user_id =? host_id quiz) = false) as ->; [|reflexivity].
    apply Z.eqb_neq. congruence.
  - intros [= <-] Hst. rewrite Z.eqb_refl. cbn [negb].
    assert (String.eqb (status quiz) "configuring" = false) as ->;
      [|reflexivity].
    apply String.eqb_neq. congruence.
Qed.

(** The host of a quiz that is being configured. *)
Record configuring (group_id user_id : Z) (w : world) (l : nat) (quiz : quiz)
  : Prop := {
  cfg_quiz : get_quiz group_id w = Some (l, quiz);
  cfg_host : user_id = host_id quiz;
  cfg_status : status quiz = "configuring"%string }.

Lemma configuring_dispatch group_id user_id data w l quiz :
  configuring group_id user_id w l quiz ->
  handle_config_callback group_id user_id data w
  = match Py.split ":" data with
    | [_; config_type; config_value] =>
        if String.eqb config_type "cancel" then
          Returned (send_message group_id SetupCancelled (del_quiz group_id w))
        else if String.eqb config_type "difficulty" then
          Returned (send_message group_id (DifficultySet config_value)
                      (store l
                         (set_config
                            {| difficulty := Some config_value;
                               num_questions := num_questions (config quiz) |}
                            quiz) w))
        else if String.eqb config_type "questions" then
          match Py.int todecimal (Py.decode config_value) with
          | None => Raised Py.ValueError w
          | Some n =>
              let quiz1 :=
                set_config {| difficulty := difficulty (config quiz);
                              num_questions := Some n |} quiz in
              match difficulty (config quiz1) with
              | None => Raised Py.KeyError (store l quiz1 w)
              | Some d =>
                  let '(qs, k) := generate_questions d (Z.to_nat n) (rng w) in
                  Returned
                    (send_message group_id (SetupComplete d n)
                       (with_rng k (store l (activate qs quiz1) w)))
              end
          end
        else if String.eqb config_type "back" then Raised Py.AttributeError w
        else Returned w
    | _ => Raised Py.ValueError w
    end.
Proof.
  intros [Hq -> Hst]. unfold handle_config_callback.
  rewrite Hq, Z.eqb_refl, Hst. reflexivity.
Qed.

(** X8.  The host's cancel button takes the quiz out of the registry and
    says so; the quiz objects and the sessions of other chats stay as
    they are, and the chat is free for a new setup. *)
Theorem cancel_removes_session group_id user_id data prefix value w l quiz :
  configuring group_id user_id w l quiz ->
  Py.split ":" data = [prefix; "cancel"; value]%string ->
  exists w',
    handle_config_callback group_id user_id data w = Returned w'
    /\ get_quiz group_id w' = None
    /\ (forall g, g <> group_id -> get_quiz g w' = get_quiz g w)
    /\ heap w' = heap w
    /\ outbox w' = outbox w ++ [(group_id, SetupCancelled)].
Proof.
  intros Hcfg Hsplit.
  rewrite (configuring_dispatch _ _ _ _ _ _ Hcfg), Hsplit.
  change (String.eqb "cancel" "cancel") with true. cbv iota.
  eexists. split; [reflexivity|].
  split; [rewrite get_quiz_send_message; apply get_quiz_del_quiz|].
  split; [|by split].
  intros g Hg. unfold get_quiz. cbn. by rewrite lookup_delete_ne.
Qed.

(** X9.  The host's difficulty button records the value on the button,
    any text at all, and nothing else: the quiz stays in configuration
    and inactive, and a question count chosen before is kept. *)
Theorem difficulty_choice_recorded
    group_id user_id data prefix value w l quiz :
  configuring group_id user_id w l quiz ->
  Py.split ":" data = [prefix; "difficulty"; value]%string ->
  exists w' quiz',
    handle_config_callback group_id user_id data w = Returned w'
    /\ get_quiz group_id w' = Some (l, quiz')
    /\ difficulty (config quiz') = Some value
    /\ num_questions (config quiz') = num_questions (config quiz)
    /\ status quiz' = "configuring"%string
    /\ active quiz' = active quiz
    /\ questions_data quiz' = questions_data quiz
    /\ configuring group_id user_id w' l quiz'
    /\ outbox w' = outbox w ++ [(group_id, DifficultySet value)].
Proof.
  intros Hcfg Hsplit.
  rewrite (configuring_dispatch _ _ _ _ _ _ Hcfg), Hsplit.
  change (String.eqb "difficulty" "cancel") with false.
  change (String.eqb "difficulty" "difficulty") with true. cbv iota.
  destruct Hcfg as [Hq Hhost Hst].
  assert (Hq' : get_quiz group_id
            (send_message group_id (DifficultySet value)
               (store l
                  (set_config {| difficulty := Some value;
                                 num_questions := num_questions (config quiz) |}
                     quiz) w))
          = Some (l, set_config {| difficulty := Some value;
                                   num_questions := num_questions (config quiz) |}
                       quiz)).
  { rewrite get_quiz_send_message. by eapply get_quiz_store. }
  eexists _, _. split; [reflexivity|]. split; [exact Hq'|].
  do 2 (split; [reflexivity|]). split; [exact Hst|].
  do 2 (split; [reflexivity|]). split; [|reflexivity].
  split; [exact Hq'|exact Hhost|exact Hst].
Qed.

(** X10.  A question count that reaches a quiz whose difficulty was never
    chosen ends in a [KeyError]: the count is already written into the
    configuration, but the quiz is not activated, no question is
    generated and nothing is sent. *)
Theorem question_count_without_difficulty
    group_id user_id data prefix value n w l quiz :
  configuring group_id user_id w l quiz ->
  difficulty (config quiz) = None ->
  Py.split ":" data = [prefix; "questions"; value]%string ->
  Py.int todecimal (Py.decode value) = Some n ->
  exists w' quiz',
    handle_config_callback group_id user_id data w = Raised Py.KeyError w'
    /\ get_quiz group_id w' = Some (l, quiz')
    /\ num_questions (config quiz') = Some n
    /\ difficulty (config quiz') = None
    /\ status quiz' = "configuring"%string
    /\ active quiz' = active quiz
    /\ questions_data quiz' = questions_data quiz
    /\ outbox w' = outbox w
    /\ rng w' = rng w.
Proof.
  intros Hcfg Hd Hsplit Hint.
  rewrite (configuring_dispatch _ _ _ _ _ _ Hcfg), Hsplit.
  change (String.eqb "questions" "cancel") with false.
  change (String.eqb "questions" "difficulty") with false.
  change (String.eqb "questions" "questions") with true. cbv iota.
  rewrite Hint. cbn [difficulty config set_config]. rewrite Hd.
  destruct Hcfg as [Hq Hhost Hst].
  eexists _, _. split; [reflexivity|].
  split; [by eapply get_quiz_store|].
  do 2 (split; [reflexivity|]). split; [exact Hst|]. by repeat split.
Qed.

(** X11.  Callback data the handler cannot use.  Data that does not fall
    into three parts at its colons, and a question count that is no
    integer, raise [ValueError]; a setup action the handler does not know
    is passed over in silence.  In each case the process state is left
    as it was. *)
Theorem unusable_callback_data group_id user_id data w l quiz :
  configuring group_id user_id w l quiz ->
  (length (Py.split ":" data) <> 3%nat ->
   handle_config_callback group_id user_id data w = Raised Py.ValueError w)
  /\ (forall prefix value,
        Py.split ":" data = [prefix; "questions"; value]%string ->
        Py.int todecimal (Py.decode value) = None ->
        handle_config_callback group_id user_id data w
        = Raised Py.ValueError w)
  /\ (forall prefix config_type value,
        Py.split ":" data = [prefix; config_type; value] ->
        config_type <> "cancel"%string ->
        config_type <> "difficulty"%string ->
        config_type <> "questions"%string ->
        config_type <> "back"%string ->
        handle_config_callback group_id user_id data w = Returned w).
Proof.
  intros Hcfg.
  rewrite (configuring_dispatch _ _ _ _ _ _ Hcfg).
  split; [|split].
  - intros Hlen.
    destruct (Py.split ":" data) as [|a [|b [|c [|d rest]]]];
      try reflexivity. by destruct Hlen.
  - intros prefix value -> Hint.
    change (String.eqb "questions" "cancel") with false.
    change (String.eqb "questions" "difficulty") with false.
    change (String.eqb "questions" "questions") with true. cbv iota.
    by rewrite Hint.
  - intros prefix config_type value -> H1%String.eqb_neq H2%String.eqb_neq
      H3%String.eqb_neq H4%String.eqb_neq.
    by rewrite H1, H2, H3, H4.
Qed.

(** *** What answers and timeouts can do at all *)

(** X12.  A text message changes the process state only as a correct
    answer to an open round: the chat has a quiz, the quiz is active, no
    one has answered the round yet, the question's clock has been
    started, and the text reads as the expected integer.  In every other
    case the handler leaves the state untouched. *)
Theorem answer_changes_only_open_round
    group_id user_id first_name text now w :
  world_of (handle_text_answer group_id user_id first_name text now w) <> w ->
  exists l quiz start details,
    get_quiz group_id w = Some (l, quiz)
    /\ active quiz = true
    /\ first_answerer_id quiz = None
    /\ q_start_time_truthy quiz = Some start
    /\ current_question_details quiz = Some details
    /\ Py.int todecimal (Py.strip (Py.decode text)) = Some (q_answer details).
Proof.
  clear entropy get_chat_member.
  unfold handle_text_answer.
  destruct (get_quiz group_id w) as [[l quiz]|] eqn:Hq; [|by intros []].
  destruct (active quiz) eqn:Hact; [|by intros []]. cbn [negb].
  destruct (first_answerer_id quiz) eqn:Hun; [by intros []|].
  destruct (q_start_time_truthy quiz) as [start|] eqn:Hst; [|by intros []].
  destruct (Py.int todecimal (Py.strip (Py.decode text))) as [v|] eqn:Hint; [|by intros []].
  destruct (current_question_details quiz) as [details|] eqn:Hdet;
    [|by intros []].
  destruct (v =? q_answer details) eqn:E; [|by intros []].
  apply Z.eqb_eq in E. subst v. intros _.
  exists l, quiz, start, details. tauto.
Qed.


(** X14.  A timeout that closes the round sets the streak of every
    player to 0 and leaves everything else on the board alone: the same
    players in the same order, with the points and names they had.  The
    round it closed stays unlocked. *)
Theorem timeout_resets_streaks_only
    group_id i w l quiz start details sc :
  round_open group_id w l quiz start details sc ->
  current_q_index quiz = Some i ->
  exists w' quiz' sc',
    end_question_by_timeout group_id i w = Returned w'
    /\ get_quiz group_id w' = Some (l, quiz')
    /\ scores quiz' = Some sc'
    /\ map fst sc' = map fst sc
    /\ map (fun e => points (snd e)) sc' = map (fun e => points (snd e)) sc
    /\ map (fun e => username (snd e)) sc'
       = map (fun e => username (snd e)) sc
    /\ Forall (fun e => streak (snd e) = 0) sc'
    /\ first_answerer_id quiz' = None
    /\ current_q_index quiz' = Some i.
Proof.
  intros Hopen Hi.
  rewrite (timeout_effect _ _ _ _ _ _ _ _ Hopen Hi).
  eexists _, _, (reset_all_streaks sc). split; [reflexivity|].
  split; [eapply get_quiz_store; rewrite get_quiz_send_message;
          apply (open_quiz _ _ _ _ _ _ _ Hopen)|].
  split; [by rewrite fire_event_scores|].
  unfold reset_all_streaks.
  split; [by rewrite map_map|].
  split; [by rewrite map_map|].
  split; [by rewrite map_map|].
  split; [by apply Forall_map, Forall_true|].
  split.
  - rewrite fire_event_first_answerer_id. apply (open_unlocked _ _ _ _ _ _ _ Hopen).
  - unfold fire_event. by destruct (current_question_event _).
Qed.

(** *** The coordinator *)

(** A quiz the coordinator can run a round of: it is the quiz of the
    chat, is active, and holds its questions, scores and event. *)
Record ready (group_id : Z) (w : world) (l : nat) (quiz : quiz)
    (qs : list question) (sc : scores_t) : Prop := {
  ready_registry : quizzes w !! group_id = Some l;
  ready_heap : heap w !! l = Some quiz;
  ready_active : active quiz = true;
  ready_questions : questions_data quiz = Some qs;
  ready_scores : scores quiz = Some sc;
  ready_event : is_Some (current_question_event quiz) }.

Definition round_started (i : Z) (details : question) (now : Q) (q : quiz)
  : quiz :=
  set_current_question_event (Some false)
    (set_q_start_time (Some now) (begin_round i details q)).

Lemma loop_iteration_effect group_id l n i now w quiz qs sc details :
  ready group_id w l quiz qs sc ->
  i < n ->
  qs !! Z.to_nat i = Some details ->
  loop_iteration group_id l n i now w
  = (Returned
       (store l (round_started i details now quiz)
          (send_message group_id (QuestionPrompt (i + 1) n (q_text details))
             (store l (begin_round i details quiz) w))),
     Waiting l n i).
Proof.
  intros [Hr Hh Hact Hqs Hsc [b Hev]] Hi Hdet. unfold loop_iteration.
  assert ((n <=? i) = false) as -> by (apply Z.leb_gt; lia).
  rewrite Hh, Hact. cbn [negb]. rewrite Hqs, Hdet.
  cbn [current_question_event set_q_start_time begin_round]. by rewrite Hev.
Qed.

(** X15.  Opening round [i] of a running quiz sends the prompt numbered
    [i + 1], makes the [i]-th question the current one, and resets the
    round: any first answerer of the round before is forgotten, the clock
    is started and the event cleared, so that answers are taken again.
    Scores and questions are carried over as they are. *)
Theorem loop_iteration_opens_round
    group_id l n i now w quiz qs sc details :
  ready group_id w l quiz qs sc ->
  i < n ->
  qs !! Z.to_nat i = Some details ->
  ~ (now == 0)%Q ->
  exists w' quiz',
    loop_iteration group_id l n i now w = (Returned w', Waiting l n i)
    /\ round_open group_id w' l quiz' now details sc
    /\ current_q_index quiz' = Some i
    /\ current_question_event quiz' = Some false
    /\ questions_data quiz' = Some qs
    /\ outbox w' = outbox w
         ++ [(group_id, QuestionPrompt (i + 1) n (q_text details))].
Proof.
  intros Hready Hi Hdet Hnow.
  rewrite (loop_iteration_effect _ _ _ _ _ _ _ _ _ _ Hready Hi Hdet).
  destruct Hready as [Hr Hh Hact Hqs Hsc Hev].
  eexists _, (round_started i details now quiz). split; [reflexivity|].
  split; [|split; [reflexivity|split; [reflexivity|split; [exact Hqs|reflexivity]]]].
  split.
  - apply get_quiz_Some. split; [exact Hr|]. cbn. apply lookup_insert_eq.
  - exact Hact.
  - reflexivity.
  - unfold q_start_time_truthy. cbn.
    destruct (Qeq_bool now 0) eqn:E; [|reflexivity].
    apply Qeq_bool_iff in E. contradiction.
  - reflexivity.
  - exact Hsc.
Qed.

(** **** A quiz that nobody answers

    The coordinator is run step by step; whenever it waits on an event
    that is not set, the timeout watcher of its round wakes up.  No
    text message ever arrives.  [clock i] is the time at which round
    [i] is opened. *)

Fixpoint run_unanswered (group_id : Z) (clock : Z -> Q) (fuel : nat)
    (st : loop_state) (w : world) : world * loop_state :=
  match fuel with
  | O => (w, st)
  | S fuel' =>
      match st with
      | Exited => (w, st)
      | Waiting l n i =>
          if event_is_set l w then
            let '(o, st') := loop_step group_id (clock i) st w in
            run_unanswered group_id clock fuel' st' (world_of o)
          else
            run_unanswered group_id clock fuel' st
              (world_of (end_question_by_timeout group_id i w))
      | Iteration l n i =>
          let '(o, st') := loop_step group_id (clock i) st w in
          run_unanswered group_id clock fuel' st' (world_of o)
      | Sleeping _ _ _ | Finishing _ =>
          let '(o, st') := loop_step group_id 0 st w in
          run_unanswered group_id clock fuel' st' (world_of o)
      end
  end.

(** What the chat gets to read when nobody answers questions [qs],
    the first of which is question number [i + 1] of [n]. *)
Fixpoint unanswered_messages (group_id n i : Z) (qs : list question)
  : list (Z * message) :=
  match qs with
  | [] => [(group_id, QuizFinished); (group_id, EndedWithoutScores)]
  | q :: rest =>
      (group_id, QuestionPrompt (i + 1) n (q_text q))
      :: (group_id, TimesUp (q_answer q))
      :: match rest with
         | [] => []
         | _ :: _ => [(group_id, NextQuestionSoon)]
         end
      ++ unanswered_messages group_id n (i + 1) rest
  end.

Lemma run_unanswered_Exited group_id clock fuel w :
  run_unanswered group_id clock fuel Exited w = (w, Exited).
Proof. by destruct fuel. Qed.

Lemma run_unanswered_Iteration group_id clock fuel l n i w :
  run_unanswered group_id clock (S fuel) (Iteration l n i) w
  = run_unanswered group_id clock fuel
      (loop_iteration group_id l n i (clock i) w).2
      (world_of (loop_iteration group_id l n i (clock i) w).1).
Proof.
  cbn [run_unanswered loop_step].
  by destruct (loop_iteration group_id l n i (clock i) w).
Qed.

Lemma run_unanswered_Waiting group_id clock fuel l n i w :
  run_unanswered group_id clock (S fuel) (Waiting l n i) w
  = if event_is_set l w
    then run_unanswered group_id clock fuel
           (loop_resume group_id l n i w).2 (loop_resume group_id l n i w).1
    else run_unanswered group_id clock fuel (Waiting l n i)
           (world_of (end_question_by_timeout group_id i w)).
Proof.
  cbn [run_unanswered loop_step].
  destruct (event_is_set l w); [|reflexivity].
  by destruct (loop_resume group_id l n i w).
Qed.

Lemma run_unanswered_Sleeping group_id clock fuel l n i w :
  run_unanswered group_id clock (S fuel) (Sleeping l n i) w
  = run_unanswered group_id clock fuel (Iteration l n (i + 1)) w.
Proof. reflexivity. Qed.

Lemma run_unanswered_Finishing group_id clock fuel l w :
  run_unanswered group_id clock (S fuel) (Finishing l) w
  = run_unanswered group_id clock fuel Exited (loop_finish group_id l w).
Proof. reflexivity. Qed.

Lemma run_unanswered_finish group_id clock fuel l n w quiz :
  quizzes w !! group_id = Some l ->
  heap w !! l = Some quiz ->
  active quiz = true ->
  scores quiz = Some [] ->
  exists w',
    run_unanswered group_id clock (S (S fuel)) (Iteration l n n) w
    = (w', Exited)
    /\ get_quiz group_id w' = None
    /\ (exists quiz', heap w' !! l = Some quiz' /\ active quiz' = false)
    /\ outbox w' = outbox w
         ++ [(group_id, QuizFinished); (group_id, EndedWithoutScores)].
Proof.
  intros Hr Hh Hact Hsc.
  rewrite run_unanswered_Iteration. unfold loop_iteration.
  rewrite Z.leb_refl. cbn [fst snd world_of].
  rewrite run_unanswered_Finishing, run_unanswered_Exited.
  unfold loop_finish. rewrite Hh, Hact.
  set (w1 := send_message group_id QuizFinished
               (store l (set_active false quiz) w)).
  assert (Hq1 : get_quiz group_id w1 = Some (l, set_active false quiz)).
  { apply get_quiz_Some. split; [exact Hr|]. cbn. apply lookup_insert_eq. }
  assert (Hshow : show_leaderboard group_id false true w1
                  = send_message group_id EndedWithoutScores w1).
  { unfold show_leaderboard. rewrite Hq1. cbn [scores set_active].
    by rewrite Hsc. }
  rewrite Hshow. eexists. split; [reflexivity|].
  split; [apply get_quiz_del_quiz|]. split.
  - exists (set_active false quiz). split; [|reflexivity].
    cbn. apply lookup_insert_eq.
  - cbn. by rewrite <- app_assoc.
Qed.

Lemma run_unanswered_rounds group_id clock n :
  (forall i, ~ (clock i == 0)%Q) ->
  forall rest done_ l quiz w fuel,
    ready group_id w l quiz (done_ ++ rest) [] ->
    n = Z.of_nat (length (done_ ++ rest)) ->
    exists w',
      run_unanswered group_id clock (4 * length rest + 2 + fuel)
        (Iteration l n (Z.of_nat (length done_))) w
      = (w', Exited)
      /\ get_quiz group_id w' = None
      /\ (exists quiz', heap w' !! l = Some quiz' /\ active quiz' = false)
      /\ outbox w' = outbox w
           ++ unanswered_messages group_id n (Z.of_nat (length done_)) rest.
Proof.
  intros Hclock rest. induction rest as [|q rest IH];
    intros done_ l quiz w fuel Hready Hn.
  - rewrite app_nil_r in Hn. rewrite <- Hn.
    destruct Hready as [Hr Hh Hact Hqs Hsc Hev].
    apply (run_unanswered_finish group_id clock fuel l n w quiz); assumption.
  - set (i := Z.of_nat (length done_)).
    assert (Hi : i < n) by (rewrite Hn, length_app; cbn; lia).
    assert (Hdet : (done_ ++ q :: rest) !! Z.to_nat i = Some q).
    { subst i. rewrite Nat2Z.id. by apply list_lookup_middle. }
    pose proof (loop_iteration_effect group_id l n i (clock i) w quiz _ _ q
                  Hready Hi Hdet) as Hiter.
    destruct Hready as [Hr Hh Hact Hqs Hsc [b Hev]].
    replace (4 * length (q :: rest) + 2 + fuel)%nat
      with (S (S (S (S (4 * length rest + 2 + fuel))))) by (cbn; lia).
    rewrite run_unanswered_Iteration, Hiter. cbn [fst snd world_of].
    set (quiz1 := round_started i q (clock i) quiz).
    set (w1 := store l quiz1 _).
    (* nobody answers: the event is not set, the watcher wakes up *)
    assert (Hh1 : heap w1 !! l = Some quiz1) by (cbn; apply lookup_insert_eq).
    assert (Hnotset : event_is_set l w1 = false).
    { unfold event_is_set. by rewrite Hh1. }
    rewrite run_unanswered_Waiting, Hnotset.
    assert (Hopen1 : round_open group_id w1 l quiz1 (clock i) q []).
    { split; try reflexivity.
      - apply get_quiz_Some. by split.
      - exact Hact.
      - unfold q_start_time_truthy. cbn.
        destruct (Qeq_bool (clock i) 0) eqn:E; [|reflexivity].
        apply Qeq_bool_iff in E. by destruct (Hclock i).
      - exact Hsc. }
    rewrite (timeout_effect group_id i w1 l quiz1 (clock i) q [] Hopen1 eq_refl).
    cbn [world_of].
    set (quiz2 := fire_event (set_scores (Some (reset_all_streaks [])) quiz1)).
    set (w2 := store l quiz2 _).
    assert (Hh2 : heap w2 !! l = Some quiz2) by (cbn; apply lookup_insert_eq).
    assert (Hev2 : current_question_event quiz2 = Some true) by reflexivity.
    assert (Hset : event_is_set l w2 = true).
    { unfold event_is_set. by rewrite Hh2, Hev2. }
    rewrite run_unanswered_Waiting, Hset.
    assert (Hq2 : get_quiz group_id w2 = Some (l, quiz2)).
    { apply get_quiz_Some. by split. }
    unfold loop_resume. rewrite Hh2.
    assert (Hact2 : active quiz2 = true) by exact Hact.
    rewrite Hact2. cbn [negb].
    assert (Hready2 : forall w3, heap w3 = heap w2 -> quizzes w3 = quizzes w2 ->
              ready group_id w3 l quiz2 ((done_ ++ [q]) ++ rest) []).
    { intros w3 Hh3 Hr3. split.
      - rewrite Hr3. exact Hr.
      - rewrite Hh3. exact Hh2.
      - exact Hact2.
      - rewrite <- app_assoc. exact Hqs.
      - reflexivity.
      - by eexists. }
    assert (Hlen : Z.of_nat (length (done_ ++ [q])) = i + 1).
    { rewrite length_app. cbn. lia. }
    assert (Hn' : n = Z.of_nat (length ((done_ ++ [q]) ++ rest))).
    { by rewrite <- app_assoc. }
    destruct rest as [|q' rest'].
    + (* the last round: on to the end of the loop *)
      assert ((i <? n - 1) = false) as ->.
      { apply Z.ltb_ge. rewrite Hn, length_app. cbn. lia. }
      cbn [fst snd].
      destruct (IH (done_ ++ [q]) l quiz2 w2 (S fuel)
                  (Hready2 w2 eq_refl eq_refl) Hn')
        as (w' & Hrun & Hgone & Hquiz & Hout).
      rewrite Hlen in Hrun, Hout.
      replace (S (4 * length (@nil question) + 2 + fuel))
        with (4 * length (@nil question) + 2 + S fuel)%nat by lia.
      exists w'. split; [exact Hrun|]. split; [exact Hgone|].
      split; [exact Hquiz|]. rewrite Hout. cbn. by rewrite <- !app_assoc.
    + (* rounds remain: the board has nothing to show, the pause follows *)
      assert ((i <? n - 1) = true) as ->.
      { apply Z.ltb_lt. rewrite Hn, length_app. cbn. lia. }
      assert (Hshow : show_leaderboard group_id true false w2 = w2).
      { unfold show_leaderboard. by rewrite Hq2. }
      rewrite Hshow. cbn [fst snd]. rewrite run_unanswered_Sleeping.
      set (w3 := send_message group_id NextQuestionSoon w2).
      destruct (IH (done_ ++ [q]) l quiz2 w3 fuel
                  (Hready2 w3 eq_refl eq_refl) Hn')
        as (w' & Hrun & Hgone & Hquiz & Hout).
      rewrite Hlen in Hrun, Hout.
      exists w'. split; [exact Hrun|]. split; [exact Hgone|].
      split; [exact Hquiz|]. rewrite Hout. cbn. rewrite <- !app_assoc.
      reflexivity.
Qed.

(** X16.  A quiz that nobody answers runs to its end.  From a freshly
    activated quiz with questions [qs], the coordinator and the timeout
    watchers alone, given steps enough, go through every round in order
    - prompt, "time's up" with the answer, and a pause notice before
    each further round - then announce the end and the lack of scores,
    mark the quiz inactive and take it out of the registry. *)
Theorem unanswered_quiz_runs_to_its_end
    group_id clock l quiz qs w fuel :
  (forall i, ~ (clock i == 0)%Q) ->
  ready group_id w l quiz qs [] ->
  (4 * length qs + 2 <= fuel)%nat ->
  exists w',
    run_unanswered group_id clock fuel
      (Iteration l (Z.of_nat (length qs)) 0) w
    = (w', Exited)
    /\ get_quiz group_id w' = None
    /\ (exists quiz', heap w' !! l = Some quiz' /\ active quiz' = false)
    /\ outbox w' = outbox w
         ++ unanswered_messages group_id (Z.of_nat (length qs)) 0 qs.
Proof.
  intros Hclock Hready Hfuel.
  replace fuel with (4 * length qs + 2 + (fuel - (4 * length qs + 2)))%nat
    by lia.
  apply (run_unanswered_rounds group_id clock (Z.of_nat (length qs)) Hclock
           qs [] l quiz w _ Hready eq_refl).
Qed.

(** *** The board as a dictionary *)

Lemma scores_get_None user_id sc :
  scores_get user_id sc = None <-> ~ In user_id (map fst sc).
Proof.
  clear entropy get_chat_member.
  induction sc as [|[k d] sc IH]; cbn; [tauto|].
  destruct (k =? user_id) eqn:E.
  - apply Z.eqb_eq in E. split; [discriminate|]. intros H. destruct H. by left.
  - apply Z.eqb_neq in E. rewrite IH. tauto.
Qed.

Lemma scores_alter_keys f user_id sc :
  map fst (scores_alter f user_id sc) = map fst sc.
Proof.
  unfold scores_alter. rewrite map_map. apply map_ext.
  intros [k d]. cbn. by destruct (k =? user_id).
Qed.

Lemma reset_other_streaks_keys user_id sc :
  map fst (reset_other_streaks user_id sc) = map fst sc.
Proof.
  unfold reset_other_streaks. rewrite map_map. apply map_ext.
  intros [k d]. cbn. by destruct (k =? user_id).
Qed.

Lemma scores_after_win_keys user_id first_name earned sc :
  map fst (scores_after_win user_id first_name earned sc)
  = map fst sc
    ++ match scores_get user_id sc with Some _ => [] | None => [user_id] end.
Proof.
  unfold scores_after_win.
  rewrite reset_other_streaks_keys, !scores_alter_keys.
  unfold scores_setdefault.
  destruct (scores_get user_id sc); [by rewrite app_nil_r|].
  by rewrite map_app.
Qed.

(** X17.  A correct answer never removes or reorders players on the
    board: the keys stay in their order, a winner who was not on the
    board yet is added once, at the end, and a board with one entry per
    player stays so. *)
Theorem correct_answer_keeps_board_keys
    group_id user_id first_name text now w l quiz start details sc :
  round_open group_id w l quiz start details sc ->
  Py.int todecimal (Py.strip (Py.decode text)) = Some (q_answer details) ->
  exists w' quiz' sc',
    handle_text_answer group_id user_id first_name text now w = Returned w'
    /\ get_quiz group_id w' = Some (l, quiz')
    /\ scores quiz' = Some sc'
    /\ map fst sc'
       = map fst sc
         ++ match scores_get user_id sc with
            | Some _ => []
            | None => [user_id]
            end
    /\ (List.NoDup (map fst sc) -> List.NoDup (map fst sc')).
Proof.
  intros Hopen Hint.
  pose proof (correct_answer_effect group_id user_id first_name text now
                w l quiz start details sc Hopen Hint) as Heff.
  cbn zeta in Heff.
  eexists _, _, _. split; [exact Heff|].
  split; [eapply get_quiz_store; rewrite get_quiz_send_message;
          apply (open_quiz _ _ _ _ _ _ _ Hopen)|].
  split; [by rewrite fire_event_scores|].
  rewrite scores_after_win_keys.
  split; [reflexivity|]. intros Hnd.
  destruct (scores_get user_id sc) as [d|] eqn:Hu.
  - by rewrite app_nil_r.
  - apply scores_get_None in Hu.
    apply NoDup_ListNoDup. apply NoDup_ListNoDup in Hnd.
    apply list.NoDup_app. split; [exact Hnd|]. split.
    + intros x Hx [->|[]]%list_elem_of_In. by apply list_elem_of_In in Hx.
    + apply NoDup_singleton.
Qed.

(** *** One chat at a time *)

(** Everything the dispatcher can hand to the handlers on behalf of one
    chat: the round events, the quiz command and a setup button. *)
Inductive update :=
| RoundEvent (ev : event)
| QuizCommand (user_id : Z) (first_name : string) (message_id : Z)
| ConfigCallback (user_id : Z) (data : string).

Definition dispatch (group_id : Z) (u : update) (w : world) : world :=
  match u with
  | RoundEvent ev => fire group_id ev w
  | QuizCommand user_id first_name message_id =>
      quiz_command group_id user_id first_name message_id w
  | ConfigCallback user_id data =>
      world_of (handle_config_callback group_id user_id data w)
  end.













(** *** Reading an answer *)

Definition all_space (s : Py.str) : Prop :=
  Forall (fun c => Py.isspace c = true) s.

Lemma lstrip_all_space s : all_space s -> Py.lstrip s = [].
Proof.
  induction 1 as [|c s Hc _ IH]; [reflexivity|]. cbn. by rewrite Hc.
Qed.

Lemma lstrip_nil s : Py.lstrip s = [] -> all_space s.
Proof.
  induction s as [|c s IH]; [constructor|]. cbn.
  destruct (Py.isspace c) eqn:Hc; [|discriminate].
  intros H. constructor; [exact Hc|by apply IH].
Qed.

Lemma lstrip_space_app l t : all_space l -> Py.lstrip (l ++ t) = Py.lstrip t.
Proof.
  induction 1 as [|c l Hc _ IH]; [reflexivity|]. cbn. by rewrite Hc.
Qed.

Lemma lstrip_app s r : Py.lstrip s <> [] -> Py.lstrip (s ++ r) = Py.lstrip s ++ r.
Proof.
  induction s as [|c s IH]; [by intros []|]. cbn.
  destruct (Py.isspace c); [exact IH|reflexivity].
Qed.

Lemma all_space_rev s : all_space s -> all_space (rev s).
Proof. apply List.Forall_rev. Qed.

Lemma strip_padded l s r :
  all_space l -> all_space r -> Py.strip (l ++ s ++ r) = Py.strip s.
Proof.
  intros Hl Hr. unfold Py.strip. rewrite lstrip_space_app by exact Hl.
  destruct (Py.lstrip s) as [|c t] eqn:Hs.
  - apply lstrip_nil in Hs.
    rewrite lstrip_space_app by exact Hs.
    by rewrite (lstrip_all_space r Hr).
  - rewrite lstrip_app by (rewrite Hs; discriminate). rewrite Hs.
    rewrite rev_app_distr.
    by rewrite lstrip_space_app by (by apply all_space_rev).
Qed.

Lemma decode_utf8_cons b s :
  Py.decode_utf8 (b :: s) = Py.utf8_char Py.decode_utf8 b s.
Proof. reflexivity. Qed.

(** Bytes that do not begin in the middle of a character. *)
Definition starts_character (r : list N) : Prop :=
  match r with
  | c :: _ => Py.is_continuation c = false
  | [] => True
  end.

(** Decoding reads a text character by character: in front of bytes that
    start a character what stands before is decoded by itself. *)
Lemma decode_utf8_app t r :
  starts_character r ->
  Py.decode_utf8 (t ++ r) = Py.decode_utf8 t ++ Py.decode_utf8 r.
Proof.
  destruct r as [|c r]; [by rewrite !app_nil_r|].
  cbn [starts_character]. intros Hr.
  remember (length t) as n eqn:Hn. revert t Hn.
  induction n as [n IH] using lt_wf_ind. intros t ->.
  assert (IH' : forall t', (length t' < length t)%nat ->
            Py.decode_utf8 (t' ++ c :: r)
            = Py.decode_utf8 t' ++ Py.decode_utf8 (c :: r)).
  { intros t' Hlt. by eapply IH. }
  clear IH.
  destruct t as [|b t1]; [reflexivity|].
  rewrite <- app_comm_cons, !decode_utf8_cons.
  pose proof (IH' t1 ltac:(cbn; lia)) as H1.
  destruct t1 as [|c1 t2].
  { unfold Py.utf8_char. cbn [app] in *. rewrite Hr.
    by destruct (b <? 0x80)%N. }
  pose proof (IH' t2 ltac:(cbn; lia)) as H2.
  destruct t2 as [|c2 t3].
  { unfold Py.utf8_char. cbn [app] in *. rewrite Hr. cbn [negb].
    destruct (b <? 0x80)%N; [by rewrite H1|].
    destruct (negb (Py.is_continuation c1)); [by rewrite H1|].
    destruct (_ && _)%N; [by rewrite H2|by rewrite H1]. }
  pose proof (IH' t3 ltac:(cbn; lia)) as H3.
  destruct t3 as [|c3 t4].
  { unfold Py.utf8_char. cbn [app] in *. rewrite Hr. cbn [andb].
    destruct (b <? 0x80)%N; [by rewrite H1|].
    destruct (negb (Py.is_continuation c1)); [by rewrite H1|].
    destruct (_ && _)%N; [by rewrite H2|].
    destruct (negb (Py.is_continuation c2)); [by rewrite H1|].
    destruct (_ && _ && _)%N; [by rewrite H3|by rewrite H1]. }
  pose proof (IH' t4 ltac:(cbn; lia)) as H4.
  unfold Py.utf8_char. cbn [app] in *.
  destruct (b <? 0x80)%N; [by rewrite H1|].
  destruct (negb (Py.is_continuation c1)); [by rewrite H1|].
  destruct (_ && _)%N; [by rewrite H2|].
  destruct (negb (Py.is_continuation c2)); [by rewrite H1|].
  destruct (_ && _ && _)%N; [by rewrite H3|].
  destruct (_ && _ && _ && _)%N; [by rewrite H4|by rewrite H1].
Qed.

Lemma isspace_small c : Py.isspace c = true -> (c <= 0x3000)%N.
Proof.
  unfold Py.isspace.
  rewrite !orb_true_iff, !andb_true_iff, !N.leb_le, !N.eqb_eq. lia.
Qed.

Lemma stray_no_space b s : ~ all_space ((0xDC00 + b)%N :: s).
Proof. intros H%List.Forall_inv%isspace_small. lia. Qed.

(** Bytes that decode to white space are whole characters: what follows
    them is decoded by itself. *)
Lemma decode_utf8_space_app l t :
  all_space (Py.decode_utf8 l) ->
  Py.decode_utf8 (l ++ t) = Py.decode_utf8 l ++ Py.decode_utf8 t.
Proof.
  remember (length l) as n eqn:Hn. revert l Hn.
  induction n as [n IH] using lt_wf_ind. intros l -> Hl.
  assert (IH' : forall l', (length l' < length l)%nat ->
            all_space (Py.decode_utf8 l') ->
            Py.decode_utf8 (l' ++ t)
            = Py.decode_utf8 l' ++ Py.decode_utf8 t).
  { intros l' Hlt. by eapply IH. }
  clear IH.
  destruct l as [|b l1]; [reflexivity|].
  rewrite <- app_comm_cons, decode_utf8_cons.
  rewrite decode_utf8_cons in Hl |- *.
  pose proof (IH' l1 ltac:(cbn; lia)) as H1.
  destruct l1 as [|c1 l2].
  { unfold Py.utf8_char in *. cbn [app] in *.
    destruct (b <? 0x80)%N; [reflexivity|]. by apply stray_no_space in Hl. }
  pose proof (IH' l2 ltac:(cbn; lia)) as H2.
  destruct l2 as [|c2 l3].
  { unfold Py.utf8_char in *. cbn [app] in *.
    destruct (b <? 0x80)%N;
      [by rewrite H1 by (by apply List.Forall_inv_tail in Hl)|].
    destruct (negb (Py.is_continuation c1));
      [by apply stray_no_space in Hl|].
    destruct (_ && _)%N; [|by apply stray_no_space in Hl].
    by rewrite H2 by (by apply List.Forall_inv_tail in Hl). }
  pose proof (IH' l3 ltac:(cbn; lia)) as H3.
  destruct l3 as [|c3 l4].
  { unfold Py.utf8_char in *. cbn [app] in *.
    destruct (b <? 0x80)%N;
      [by rewrite H1 by (by apply List.Forall_inv_tail in Hl)|].
    destruct (negb (Py.is_continuation c1));
      [by apply stray_no_space in Hl|].
    destruct (_ && _)%N;
      [by rewrite H2 by (by apply List.Forall_inv_tail in Hl)|].
    destruct (negb (Py.is_continuation c2));
      [by apply stray_no_space in Hl|].
    destruct (_ && _ && _)%N; [|by apply stray_no_space in Hl].
    by rewrite H3 by (by apply List.Forall_inv_tail in Hl). }
  pose proof (IH' l4 ltac:(cbn; lia)) as H4.
  unfold Py.utf8_char in *. cbn [app] in *.
  destruct (b <? 0x80)%N;
    [by rewrite H1 by (by apply List.Forall_inv_tail in Hl)|].
  destruct (negb (Py.is_continuation c1));
    [by apply stray_no_space in Hl|].
  destruct (_ && _)%N;
    [by rewrite H2 by (by apply List.Forall_inv_tail in Hl)|].
  destruct (negb (Py.is_continuation c2));
    [by apply stray_no_space in Hl|].
  destruct (_ && _ && _)%N;
    [by rewrite H3 by (by apply List.Forall_inv_tail in Hl)|].
  destruct (_ && _ && _ && _)%N; [|by apply stray_no_space in Hl].
  by rewrite H4 by (by apply List.Forall_inv_tail in Hl).
Qed.

Lemma all_space_starts_character r :
  all_space (Py.decode_utf8 r) -> starts_character r.
Proof.
  destruct r as [|b r]; [done|]. rewrite decode_utf8_cons.
  unfold Py.utf8_char, starts_character, Py.is_continuation.
  destruct (b <? 0x80)%N eqn:Hb.
  { intros _. apply N.ltb_lt in Hb.
    apply andb_false_iff. left. apply N.leb_gt. lia. }
  intros Hl.
  destruct (0x80 <=? b)%N eqn:H1, (b <? 0xC0)%N eqn:H2; try reflexivity.
  apply N.ltb_lt in H2.
  assert (((0xC2 <=? b) && (b <? 0xE0))%N = false) as E2.
  { apply andb_false_iff. left. apply N.leb_gt. lia. }
  assert (forall x, ((0xE0 <=? b) && (b <? 0xF0) && x)%N = false) as E3.
  { intros x. apply andb_false_iff. left. apply andb_false_iff. left.
    apply N.leb_gt. lia. }
  assert (forall x y z,
            (x && ((0xF0 <=? b) && (b <? 0xF5)) && y && z)%N = false) as E4.
  { intros x y z.
    assert ((0xF0 <=? b)%N = false) as -> by (apply N.leb_gt; lia).
    by rewrite andb_false_r. }
  rewrite E2 in Hl.
  destruct r as [|c1 [|c2 [|c3 r]]];
    repeat first
      [ by apply stray_no_space in Hl
      | rewrite E3 in Hl | rewrite E4 in Hl
      | destruct (negb _) in Hl ].
Qed.

Lemma list_ascii_of_string_append a b :
  String.list_ascii_of_string (String.append a b)
  = String.list_ascii_of_string a ++ String.list_ascii_of_string b.
Proof.
  induction a as [|c a IH]; [reflexivity|].
  change (c :: String.list_ascii_of_string (String.append a b)
          = c :: (String.list_ascii_of_string a ++ String.list_ascii_of_string b)).
  by rewrite IH.
Qed.

Lemma decode_padded left text right :
  all_space (Py.decode left) ->
  all_space (Py.decode right) ->
  Py.decode (String.append left (String.append text right))
  = Py.decode left ++ Py.decode text ++ Py.decode right.
Proof.
  unfold Py.decode. intros Hl Hr.
  rewrite !list_ascii_of_string_append, !map_app.
  rewrite decode_utf8_space_app by exact Hl.
  by rewrite decode_utf8_app by (by apply all_space_starts_character).
Qed.

Lemma strip_decode_padded left text right :
  all_space (Py.decode left) ->
  all_space (Py.decode right) ->
  Py.strip (Py.decode (String.append left (String.append text right)))
  = Py.strip (Py.decode text).
Proof.
  intros Hl Hr. by rewrite decode_padded, strip_padded.
Qed.

(** X19.  White space around an answer does not count: a text with
    blanks, tabs, line breaks or any other white space of Unicode
    before and after it is handled exactly like the bare text. *)
Theorem answer_whitespace_ignored
    group_id user_id first_name left text right now w :
  all_space (Py.decode left) ->
  all_space (Py.decode right) ->
  handle_text_answer group_id user_id first_name
    (String.append left (String.append text right)) now w
  = handle_text_answer group_id user_id first_name text now w.
Proof.
  intros Hl Hr. unfold handle_text_answer.
  by rewrite (strip_decode_padded left text right Hl Hr).
Qed.

(** A single decimal digit of any script reads as its value. *)
Lemma int_decimal_digit ch d :
  (128 <= ch)%N -> Py.isspace ch = false ->
  todecimal ch = Some d -> (d < 10)%N ->
  Py.int todecimal (Py.strip [ch]) = Some (Z.of_N d).
Proof.
  clear entropy get_chat_member.
  intros Hch Hsp Hd Hlt.
  assert (Hstrip : Py.strip [ch] = [ch]).
  { unfold Py.strip. cbn. rewrite Hsp. cbn. by rewrite Hsp. }
  rewrite Hstrip. unfold Py.int. cbn [forallb].
  assert ((ch <? 128)%N = false) as -> by (apply N.ltb_ge; lia).
  cbn [andb Py.transform_decimal_and_space].
  assert ((ch <? 127)%N = false) as -> by (apply N.ltb_ge; lia).
  rewrite Hsp, Hd.
  assert (Hcases : d = 0%N \/ d = 1%N \/ d = 2%N \/ d = 3%N \/ d = 4%N
                   \/ d = 5%N \/ d = 6%N \/ d = 7%N \/ d = 8%N \/ d = 9%N)
    by lia.
  destruct Hcases as [->|[->|[->|[->|[->|[->|[->|[->|[->| ->]]]]]]]]];
    reflexivity.
Qed.

(** X22.  An answer may be written in the digits of any script: a text
    that is one decimal digit of the Unicode database, of the value the
    question expects, wins an open round like its ASCII digit. *)
Theorem answer_in_any_script
    group_id user_id first_name text now w l quiz start details sc ch d :
  round_open group_id w l quiz start details sc ->
  Py.decode text = [ch] ->
  (128 <= ch)%N -> Py.isspace ch = false ->
  todecimal ch = Some d -> (d < 10)%N ->
  q_answer details = Z.of_N d ->
  exists w' earned total,
    handle_text_answer group_id user_id first_name text now w = Returned w'
    /\ outbox w' = outbox w
         ++ [(group_id,
              CorrectAnswer first_name (q_answer details) earned total)].
Proof.
  intros Hopen Htext Hch Hsp Hd Hlt Hans.
  assert (Hint : Py.int todecimal (Py.strip (Py.decode text))
                 = Some (q_answer details)).
  { rewrite Htext, Hans. by apply int_decimal_digit. }
  pose proof (correct_answer_effect group_id user_id first_name text now
                w l quiz start details sc Hopen Hint) as Heff.
  cbn zeta in Heff. eexists _, _, _. split; [exact Heff|reflexivity].
Qed.

(** *** Keys the handlers read are there

    The shapes a quiz dictionary goes through: set up by [quiz_command]
    and the difficulty button, running from activation on, or stopped. *)

Definition setting_up (q : quiz) : Prop :=
  status q = "configuring"%string /\ active q = false
  /\ q_start_time q = None.

Definition running (q : quiz) : Prop :=
  status q <> "configuring"%string
  /\ is_Some (scores q)
  /\ is_Some (current_question_event q)
  /\ is_Some (questions_data q)
  /\ (q_start_time q <> None -> is_Some (current_question_details q))
  /\ (forall i, current_q_index q = Some i -> 0 <= i ->
        is_Some (current_question_details q)).

Definition stopped (q : quiz) : Prop :=
  status q = "stopped"%string /\ active q = false.

Definition quiz_ok (q : quiz) : Prop := setting_up q \/ running q \/ stopped q.

Definition heap_ok (w : world) : Prop :=
  forall l q, heap w !! l = Some q -> quiz_ok q.

Lemma quiz_ok_active q : quiz_ok q -> active q = true -> running q.
Proof.
  intros [(_ & H & _)|[H|(_ & H)]] Hact; [congruence|exact H|congruence].
Qed.

Lemma quiz_ok_configuring q :
  quiz_ok q -> status q = "configuring"%string -> setting_up q.
Proof.
  intros [H|[(H & _)|(H & _)]] Hst; [exact H|contradiction|].
  rewrite Hst in H. discriminate H.
Qed.

Lemma heap_ok_same w w' : heap w' = heap w -> heap_ok w -> heap_ok w'.
Proof. unfold heap_ok. by intros ->. Qed.

Lemma heap_ok_insert w w' l q :
  heap w' = <[l := q]> (heap w) -> quiz_ok q -> heap_ok w -> heap_ok w'.
Proof.
  unfold heap_ok. intros -> Hq Hok l' q' Hl'.
  destruct (decide (l = l')) as [->|Hne].
  - rewrite lookup_insert_eq in Hl'. by injection Hl' as <-.
  - rewrite lookup_insert_ne in Hl' by exact Hne. by eapply Hok.
Qed.

Lemma get_quiz_heap_ok group_id w l quiz :
  heap_ok w -> get_quiz group_id w = Some (l, quiz) -> quiz_ok quiz.
Proof. intros Hok [_ Hh]%get_quiz_Some. by eapply Hok. Qed.

Lemma running_fire_event q : running q -> running (fire_event q).
Proof.
  unfold fire_event. destruct (current_question_event q) eqn:E; [|done].
  intros (H1 & H2 & H3 & H4 & H5 & H6). repeat split; try assumption.
  by eexists.
Qed.

(** X20.  In a state whose quiz dictionaries have one of the three
    shapes, a text message is always handled without an exception, and
    so is the timeout of any round from 0 on: the keys [scores] and
    [current_question_details] are there whenever the guards let the
    handlers read them. *)
Theorem answer_and_timeout_never_raise
    group_id user_id first_name text now q_index w :
  heap_ok w ->
  (exists w',
     handle_text_answer group_id user_id first_name text now w = Returned w')
  /\ (0 <= q_index ->
      exists w', end_question_by_timeout group_id q_index w = Returned w').
Proof.
  intros Hok. split.
  - unfold handle_text_answer.
    destruct (get_quiz group_id w) as [[l quiz]|] eqn:Hq; [|by eexists].
    pose proof (get_quiz_heap_ok _ _ _ _ Hok Hq) as Hquiz.
    destruct (active quiz) eqn:Hact; [|by eexists]. cbn [negb].
    apply quiz_ok_active in Hquiz as (_ & [sc Hsc] & _ & _ & Hdet & _);
      [|exact Hact].
    destruct (first_answerer_id quiz); [by eexists|].
    unfold q_start_time_truthy.
    destruct (q_start_time quiz) as [t|] eqn:Ht; [|by eexists].
    destruct (Qeq_bool t 0); [by eexists|].
    destruct (Py.int todecimal (Py.strip (Py.decode text))) as [v|]; [|by eexists].
    destruct Hdet as [d Hd]; [discriminate|]. rewrite Hd.
    destruct (v =? q_answer d); [|by eexists].
    cbn [scores set_first_answerer_id]. rewrite Hsc. by eexists.
  - intros Hi. unfold end_question_by_timeout.
    destruct (get_quiz group_id w) as [[l quiz]|] eqn:Hq; [|by eexists].
    pose proof (get_quiz_heap_ok _ _ _ _ Hok Hq) as Hquiz.
    destruct (active quiz) eqn:Hact; [|by eexists]. cbn [negb].
    apply quiz_ok_active in Hquiz as (_ & [sc Hsc] & _ & _ & _ & Hdet);
      [|exact Hact].
    destruct (current_q_index quiz) as [i|] eqn:Hidx; [|by eexists].
    destruct (i =? q_index) eqn:E; [|by eexists]. cbn [negb].
    apply Z.eqb_eq in E. subst i.
    destruct (first_answerer_id quiz); [by eexists|].
    rewrite Hsc. cbn [current_question_details set_scores].
    destruct (Hdet q_index eq_refl Hi) as [d Hd]. rewrite Hd. by eexists.
Qed.

Lemma handle_text_answer_heap_ok group_id user_id first_name text now w :
  heap_ok w ->
  heap_ok (world_of (handle_text_answer group_id user_id first_name text now w)).
Proof.
  intros Hok. unfold handle_text_answer.
  destruct (get_quiz group_id w) as [[l quiz]|] eqn:Hq; [|exact Hok].
  pose proof (get_quiz_heap_ok _ _ _ _ Hok Hq) as Hquiz.
  destruct (active quiz) eqn:Hact; [|exact Hok]. cbn [negb].
  apply quiz_ok_active in Hquiz; [|exact Hact].
  destruct (first_answerer_id quiz); [exact Hok|].
  destruct (q_start_time_truthy quiz); [|exact Hok].
  destruct (Py.int todecimal (Py.strip (Py.decode text))) as [v|]; [|exact Hok].
  destruct (current_question_details quiz) as [d|] eqn:Hd; [|exact Hok].
  destruct (v =? q_answer d); [|exact Hok].
  cbn [scores set_first_answerer_id].
  destruct Hquiz as (H1 & [sc Hsc] & H3 & H4 & H5 & H6). rewrite Hsc.
  eapply heap_ok_insert; [reflexivity| |exact Hok].
  right. left. apply running_fire_event.
  repeat split; try assumption. by eexists.
Qed.

Lemma end_question_by_timeout_heap_ok group_id q_index w :
  heap_ok w ->
  heap_ok (world_of (end_question_by_timeout group_id q_index w)).
Proof.
  intros Hok. unfold end_question_by_timeout.
  destruct (get_quiz group_id w) as [[l quiz]|] eqn:Hq; [|exact Hok].
  pose proof (get_quiz_heap_ok _ _ _ _ Hok Hq) as Hquiz.
  destruct (active quiz) eqn:Hact; [|exact Hok]. cbn [negb].
  apply quiz_ok_active in Hquiz; [|exact Hact].
  destruct (current_q_index quiz) as [i|]; [|exact Hok].
  destruct (negb (i =? q_index)); [exact Hok|].
  destruct (first_answerer_id quiz); [exact Hok|].
  destruct (scores quiz) as [sc|] eqn:Hsc; [|exact Hok].
  cbn [current_question_details set_scores].
  destruct Hquiz as (H1 & _ & H3 & H4 & H5 & H6).
  assert (Hrun : running (set_scores (Some (reset_all_streaks sc)) quiz)).
  { repeat split; try assumption. by eexists. }
  destruct (current_question_details quiz).
  - eapply heap_ok_insert; [reflexivity| |exact Hok].
    right. left. by apply running_fire_event.
  - eapply heap_ok_insert; [reflexivity| |exact Hok]. right. by left.
Qed.

Lemma stop_quiz_heap_ok group_id user_id first_name chat_type w :
  heap_ok w -> heap_ok (stop_quiz group_id user_id first_name chat_type w).
Proof.
  intros Hok. unfold stop_quiz.
  destruct (get_quiz group_id w) as [[l quiz]|] eqn:Hq; [|exact Hok].
  destruct (negb (user_id =? host_id quiz)
            && negb (_is_admin chat_type group_id user_id)); [exact Hok|].
  set (quiz1 := fire_event _). set (w1 := send_message _ _ _).
  assert (Hok1 : heap_ok w1).
  { eapply heap_ok_insert; [reflexivity| |exact Hok].
    right. right. subst quiz1. unfold fire_event, stopped.
    by destruct (current_question_event _). }
  destruct (scores quiz1) as [[|e sc]|]; try exact Hok1.
  pose proof (show_leaderboard_frame group_id false true w1) as (Hh & _).
  eapply heap_ok_same; [|exact Hok1]. exact Hh.
Qed.

Lemma quiz_command_heap_ok group_id user_id first_name message_id w :
  heap_ok w ->
  heap_ok (quiz_command group_id user_id first_name message_id w).
Proof.
  intros Hok.
  assert (Hstart :
    heap_ok (start_setup group_id user_id first_name message_id w)).
  { unfold start_setup.
    eapply heap_ok_insert; [reflexivity|by left|].
    eapply heap_ok_insert; [reflexivity|by left|exact Hok]. }
  unfold quiz_command.
  destruct (get_quiz group_id w) as [[l quiz]|]; [|exact Hstart].
  destruct (active quiz); [exact Hok|exact Hstart].
Qed.

Lemma handle_config_callback_heap_ok group_id user_id data w :
  heap_ok w ->
  heap_ok (world_of (handle_config_callback group_id user_id data w)).
Proof.
  intros Hok. unfold handle_config_callback.
  destruct (get_quiz group_id w) as [[l quiz]|] eqn:Hq; [|exact Hok].
  pose proof (get_quiz_heap_ok _ _ _ _ Hok Hq) as Hquiz.
  destruct (negb (user_id =? host_id quiz)); [exact Hok|].
  destruct (String.eqb (status quiz) "configuring") eqn:Hst; [|exact Hok].
  apply String.eqb_eq in Hst. cbn [negb].
  apply quiz_ok_configuring in Hquiz as (_ & Hact & Hstart); [|exact Hst].
  destruct (Py.split ":" data) as [|a [|b [|c [|d rest]]]]; try exact Hok.
  destruct (String.eqb b "cancel"); [exact Hok|].
  destruct (String.eqb b "difficulty").
  { eapply heap_ok_insert; [reflexivity| |exact Hok]. by left. }
  destruct (String.eqb b "questions").
  - destruct (Py.int todecimal (Py.decode c)) as [n|]; [|exact Hok].
    cbn [difficulty config set_config].
    destruct (difficulty (config quiz)) as [df|].
    + destruct (generate_questions df (Z.to_nat n) (rng w)) as [qs k].
      eapply heap_ok_insert; [reflexivity| |exact Hok].
      right. left. unfold running. cbn.
      split; [discriminate|]. do 3 (split; [by eexists|]).
      split; [by rewrite Hstart|]. intros i [= <-] Hi. lia.
    + eapply heap_ok_insert; [reflexivity| |exact Hok]. by left.
  - destruct (String.eqb b "back"); exact Hok.
Qed.

Lemma loop_step_heap_ok group_id now st w :
  heap_ok w -> heap_ok (world_of (loop_step group_id now st w).1).
Proof.
  intros Hok. destruct st as [l n i|l n i|l n i|l|]; cbn [loop_step].
  - unfold loop_iteration. destruct (n <=? i); [exact Hok|].
    destruct (heap w !! l) as [quiz|] eqn:Hl; [|exact Hok].
    pose proof (Hok l quiz Hl) as Hquiz.
    destruct (active quiz) eqn:Hact; [|exact Hok]. cbn [negb].
    apply quiz_ok_active in Hquiz as (H1 & H2 & H3 & H4 & H5 & H6);
      [|exact Hact].
    destruct (questions_data quiz) as [qs|] eqn:Hqs; [|exact Hok].
    destruct (qs !! Z.to_nat i) as [d|]; [|exact Hok].
    assert (Hqs' : is_Some (questions_data quiz)) by (by rewrite Hqs).
    assert (Hbegin : running (begin_round i d quiz)).
    { unfold running. cbn. repeat split; try assumption; intros; by eexists. }
    assert (Hstarted : running (set_q_start_time (Some now) (begin_round i d quiz))).
    { unfold running. cbn. repeat split; try assumption; intros; by eexists. }
    cbn [current_question_event set_q_start_time begin_round].
    destruct (current_question_event quiz) as [b|] eqn:Hev; cbn [fst world_of].
    + eapply heap_ok_insert; [reflexivity| |].
      * right. left. unfold running. cbn.
        repeat split; try assumption; intros; by eexists.
      * eapply heap_ok_insert; [reflexivity|right; by left|exact Hok].
    + eapply heap_ok_insert; [reflexivity|right; by left|].
      eapply heap_ok_insert; [reflexivity|right; by left|exact Hok].
  - destruct (event_is_set l w); [|exact Hok].
    pose proof (loop_resume_frame group_id l n i w) as (Hh & _).
    destruct (loop_resume group_id l n i w) as [w' st']. cbn in *.
    by eapply heap_ok_same.
  - exact Hok.
  - cbn [fst world_of]. unfold loop_finish.
    destruct (heap w !! l) as [quiz|] eqn:Hl; [|exact Hok].
    pose proof (Hok l quiz Hl) as Hquiz.
    destruct (active quiz) eqn:Hact; [|exact Hok].
    apply quiz_ok_active in Hquiz as (H1 & H2 & H3 & H4 & H5 & H6);
      [|exact Hact].
    set (w1 := send_message _ _ _).
    pose proof (show_leaderboard_frame group_id false true w1) as (Hh & _).
    eapply heap_ok_same; [exact Hh|].
    eapply heap_ok_insert; [reflexivity| |exact Hok].
    right. left. by repeat split.
  - exact Hok.
Qed.

(** X21.  The three shapes are kept: whatever the dispatcher hands to a
    handler, and whatever step a coordinator takes, every quiz
    dictionary is afterwards again set up, running or stopped. *)
Theorem quiz_shapes_preserved group_id u now st w :
  heap_ok w ->
  heap_ok (dispatch group_id u w)
  /\ heap_ok (world_of (loop_step group_id now st w).1).
Proof.
  intros Hok. split; [|by apply loop_step_heap_ok].
  destruct u as [[| |]| |]; cbn [dispatch fire].
  - by apply handle_text_answer_heap_ok.
  - by apply end_question_by_timeout_heap_ok.
  - by apply stop_quiz_heap_ok.
  - by apply quiz_command_heap_ok.
  - by apply handle_config_callback_heap_ok.
Qed.

End Bot.

(** * A session played out

    The bot run from an empty registry: the host (user 10) of chat 1 sets
    up an easy quiz of five questions and the coordinator opens round 0 at
    time 1000.  The random stream hands out 0, 1, 2, ... and the platform
    knows no administrators. *)

Definition entropy0 (k : nat) : nat := k.

Definition members0 (chat_id user_id : Z) : option member_status := None.

(** The decimal digits of some scripts, by the code point of their zero:
    ASCII, Arabic-Indic and its extended form, Devanagari, Bengali,
    Thai, and the fullwidth forms. *)
Definition todecimal0 (ch : N) : option N :=
  match
    List.find (fun zero => ((zero <=? ch) && (ch <? zero + 10))%N)
      [0x0030; 0x0660; 0x06F0; 0x0966; 0x09E6; 0x0E50; 0xFF10]%N
  with
  | Some zero => Some (ch - zero)%N
  | None => None
  end.

Definition w_empty : world :=
  {| heap := ∅; quizzes := ∅; outbox := []; rng := 0 |}.

Definition w_setup : world := quiz_command 1 10 "Host" 500 w_empty.

Definition w_difficulty : world :=
  world_of (handle_config_callback entropy0 todecimal0 1 10 "config:difficulty:easy"
              w_setup).

Definition w_active : world :=
  world_of (handle_config_callback entropy0 todecimal0 1 10 "config:questions:5"
              w_difficulty).

Definition w_round : world :=
  world_of (loop_iteration 1 0 5 0 1000 w_active).1.

Definition quiz_difficulty : quiz :=
  Eval vm_compute in
    match get_quiz 1 w_difficulty with Some (_, q) => q | None => new_quiz 0 end.

Definition quiz_round : quiz :=
  Eval vm_compute in
    match get_quiz 1 w_round with Some (_, q) => q | None => new_quiz 0 end.

(** The question of round 0: 1 - 2 + 3. *)
Definition details_round : question :=
  {| q_text := {| nums := (1, 2, 3); ops := (Minus, Plus) |};
     q_answer := 2; q_type := "math_text"; q_difficulty := "easy" |}.

(** The same round with three players on the board, entered in the order
    A, B, C. *)
Definition scores_abc : scores_t :=
  [ (101, {| points := 300; streak := 2; username := "A" |});
    (102, {| points := 300; streak := 0; username := "B" |});
    (103, {| points := 100; streak := 0; username := "C" |}) ].

Definition w_abc : world :=
  store 0 (set_scores (Some scores_abc) quiz_round) w_round.

(** Round 0 after its timeout, nobody having scored yet. *)
Definition w_timed_out : world :=
  fire entropy0 members0 todecimal0 1 (Timeout 0) w_round.

(** ** The spec's wording of the claims the code departs from *)

(** The score as the spec words it, with the speed bonus rounded. *)
Definition score_as_specified (elapsed : Q) (current_streak : Z) : Z * Z :=
  (100 + Py.round (50 * Qmax 0 ((20 - elapsed) / 20)) + current_streak * 10,
   current_streak + 1).


(** "Start-setup creates a session only when the prior one is absent or
    stopped; otherwise it is rejected and the session is unchanged." *)
Definition setup_only_when_absent_or_stopped (group_id user_id : Z)
    (first_name : string) (message_id : Z) (w : world) : Prop :=
  get_quiz group_id w = None
  \/ (exists l q, get_quiz group_id w = Some (l, q)
                  /\ status q = "stopped"%string)
  \/ get_quiz group_id (quiz_command group_id user_id first_name message_id w)
     = get_quiz group_id w.

(** "A placeholder message is emitted when scores is empty", for the
    rendering with the given flags. *)
Definition placeholder_emitted (group_id : Z) (mid_quiz final : bool)
    (w : world) : Prop :=
  exists m,
    outbox (show_leaderboard entropy0 group_id mid_quiz final w)
    = outbox w ++ [m].

(** ** The properties on the played session *)

Lemma round_open_w_round :
  round_open 1 w_round 0 quiz_round 1000 details_round [].
Proof. split; reflexivity. Defined.



Lemma correct_answer_points_and_streak_witness :
  exists w',
    handle_text_answer todecimal0 1 7 "Ann" "2" 1000 w_round = Returned w'
    /\ outbox w' = outbox w_round ++ [(1, CorrectAnswer "Ann" 2 150 150)].
Proof.
  destruct (correct_answer_points_and_streak todecimal0 1 7 "Ann" "2" 1000 w_round 0
              quiz_round 1000 details_round [] round_open_w_round eq_refl)
    as (w' & quiz' & sc' & d & Hret & Hout & _).
  exists w'. split; [exact Hret|exact Hout].
Defined.

(** C2 fails as stated: an eighth of a second after the question, at
    1000.125 on the clock, the bonus is 49.6875 before it is made an
    integer; the code pays 149 points where rounding would pay 150. *)
Lemma speed_bonus_is_cut_not_rounded :
  (Py.sub (8001 # 8) 1000 == 1 # 8)%Q
  /\ outbox (world_of (handle_text_answer todecimal0 1 7 "Ann" "2" (8001 # 8)
                         w_round))
     = outbox w_round ++ [(1, CorrectAnswer "Ann" 2 149 149)]
  /\ (score_as_specified (1 # 8) 0).1 = 150
  /\ points_earned (Py.sub (8001 # 8) 1000) 0
     <> (score_as_specified (1 # 8) 0).1.
Proof.
  split; [vm_compute; reflexivity|].
  split; [vm_compute; reflexivity|]. split; [vm_compute; reflexivity|].
  intros H. vm_compute in H. discriminate H.
Qed.

Lemma wrong_or_malformed_answer_changes_nothing_witness :
  world_of (handle_text_answer todecimal0 1 7 "Ann" "abc" 1001 w_round) = w_round
  /\ world_of (handle_text_answer todecimal0 1 7 "Ann" "3" 1001 w_round) = w_round.
Proof.
  split.
  - apply (wrong_or_malformed_answer_changes_nothing todecimal0 1 7 "Ann" "abc" 1001
             w_round).
    left. reflexivity.
  - apply (wrong_or_malformed_answer_changes_nothing todecimal0 1 7 "Ann" "3" 1001
             w_round).
    right. vm_compute. discriminate.
Defined.

Lemma round_open_w_abc :
  round_open 1 w_abc 0 (set_scores (Some scores_abc) quiz_round) 1000
    details_round scores_abc.
Proof. split; reflexivity. Defined.

Lemma first_correct_answer_frame_witness :
  exists w' quiz' sc' d,
    handle_text_answer todecimal0 1 102 "B" "2" 1010 w_abc = Returned w'
    /\ get_quiz 1 w' = Some (0%nat, quiz')
    /\ first_answerer_id quiz' = Some 102
    /\ scores quiz' = Some sc'
    /\ scores_get 102 sc' = Some d
    /\ streak d = prior_streak 102 scores_abc + 1
    /\ points d
       = prior_points 102 scores_abc
         + points_earned (Py.sub 1010 1000) (prior_streak 102 scores_abc)
    /\ (forall p d', p <> 102 -> scores_get p sc' = Some d' -> streak d' = 0)
    /\ (forall p, p <> 102 ->
          points <$> scores_get p sc' = points <$> scores_get p scores_abc).
Proof.
  apply (first_correct_answer_frame todecimal0 1 102 "B" "2" 1010 w_abc 0
           (set_scores (Some scores_abc) quiz_round) 1000 details_round
           scores_abc round_open_w_abc eq_refl).
Defined.

(** C5 fails as stated: chat 1 is still being configured by user 10, a
    session neither absent nor stopped, and the command of user 20 is not
    rejected but puts a new session in its place. *)
Lemma setup_replaces_configuring_session :
  ~ setup_only_when_absent_or_stopped 1 20 "Eve" 501 w_setup.
Proof.
  intros [H|[(l & q & H & Hs)|H]].
  - vm_compute in H. discriminate H.
  - vm_compute in H. injection H as <- <-. vm_compute in Hs. discriminate Hs.
  - vm_compute in H. discriminate H.
Qed.

Lemma leaderboard_sorted_stable_top_ten_witness :
  (exists ranked rows rest,
     outbox (show_leaderboard entropy0 1 true false w_abc)
     = outbox w_abc ++ (1, Leaderboard true rows false) :: rest
     /\ Permutation scores_abc ranked
     /\ StronglySorted (fun a b => points (snd b) <= points (snd a)) ranked
     /\ (forall p,
           List.filter (fun e => points (snd e) =? p) ranked
           = List.filter (fun e => points (snd e) =? p) scores_abc)
     /\ map row_username rows
        = map (fun e => username (snd e)) (firstn 10 ranked)
     /\ map row_points rows = map (fun e => points (snd e)) (firstn 10 ranked)
     /\ map place rows = seqZ 1 (Z.of_nat (length rows))
     /\ length rows = Nat.min 10 (length scores_abc))
  /\ outbox (show_leaderboard entropy0 1 true false w_abc)
     = outbox w_abc
       ++ [(1, Leaderboard true
                 [ {| place := 1; row_username := "A"; row_points := 300;
                      streak_icon := Some 2 |};
                   {| place := 2; row_username := "B"; row_points := 300;
                      streak_icon := None |};
                   {| place := 3; row_username := "C"; row_points := 100;
                      streak_icon := None |} ] false)].
Proof.
  split; [|reflexivity].
  apply (leaderboard_sorted_stable_top_ten entropy0 1 true false w_abc 0
           (set_scores (Some scores_abc) quiz_round) scores_abc).
  - reflexivity.
  - reflexivity.
  - discriminate.
Defined.

Lemma question_count_choice_activates_witness :
  exists w' quiz' qs,
    handle_config_callback entropy0 todecimal0 1 10 "config:questions:5" w_difficulty
    = Returned w'
    /\ get_quiz 1 w' = Some (0%nat, quiz')
    /\ status quiz' = "active"%string
    /\ active quiz' = true
    /\ num_questions (config quiz') = Some 5
    /\ questions_data quiz' = Some qs
    /\ Z.of_nat (length qs) = 5
    /\ current_q_index quiz' = Some (-1)
    /\ q_start_time quiz' = q_start_time quiz_difficulty
    /\ current_question_details quiz'
       = current_question_details quiz_difficulty
    /\ outbox w' = outbox w_difficulty ++ [(1, SetupComplete "easy" 5)]
    /\ run_quiz_loop 1 w' = (Returned w', Iteration 0 5 0).
Proof.
  apply (question_count_choice_activates entropy0 todecimal0 1 10 "config:questions:5"
           "config" "5" 5 w_difficulty 0 quiz_difficulty "easy").
  - reflexivity.
  - reflexivity.
  - reflexivity.
  - reflexivity.
  - reflexivity.
  - reflexivity.
  - discriminate.
Defined.

Lemma leaderboard_without_scores_witness :
  show_leaderboard entropy0 1 true false w_timed_out = w_timed_out
  /\ show_leaderboard entropy0 1 true true w_timed_out
     = send_message 1 EndedWithoutScores w_timed_out.
Proof.
  apply (leaderboard_without_scores entropy0 1 true w_timed_out).
  vm_compute. reflexivity.
Defined.

(** C8 fails as stated: round 0 timed out and nobody has scored; the
    leaderboard the coordinator asks for between the rounds sends nothing
    at all, and the pause notice is the only message that follows the
    timeout. *)
Lemma mid_quiz_leaderboard_without_scores_is_silent :
  (scores <$> (snd <$> get_quiz 1 w_timed_out)) = Some (Some [])
  /\ ~ placeholder_emitted 1 true false w_timed_out
  /\ outbox (loop_resume entropy0 1 0 5 0 w_timed_out).1
     = outbox w_timed_out ++ [(1, NextQuestionSoon)].
Proof.
  split; [vm_compute; reflexivity|].
  split; [|vm_compute; reflexivity].
  intros (m & H). vm_compute in H.
  apply (f_equal (@length _)) in H. discriminate H.
Qed.

Lemma answer_accepted_after_timeout_witness :
  let w2 := (loop_resume entropy0 1 0 5 0 w_timed_out).1 in
  outbox w_timed_out = outbox w_round ++ [(1, TimesUp 2)]
  /\ exists w3 quiz',
       handle_text_answer todecimal0 1 7 "Ann" "2" 1021 w2 = Returned w3
       /\ outbox w3 = outbox w2 ++ [(1, CorrectAnswer "Ann" 2 100 100)]
       /\ get_quiz 1 w3 = Some (0%nat, quiz')
       /\ current_q_index quiz' = Some 0
       /\ first_answerer_id quiz' = Some 7.
Proof.
  destruct (answer_accepted_after_timeout entropy0 todecimal0 1 0 5 7 "Ann" "2" 1021
              w_round 0 quiz_round 1000 details_round [] round_open_w_round
              eq_refl eq_refl)
    as (Hout & w3 & quiz' & sc' & d & Hret & Hout3 & Hq & Hi & Hfirst & _).
  split; [exact Hout|].
  exists w3, quiz'. repeat split; assumption.
Defined.

Lemma private_chat_anyone_stops_witness :
  _is_admin members0 "private" 1 99 = true
  /\ let w' := stop_quiz entropy0 members0 1 99 "Zed" "private" w_round in
     quizzes w' !! 1 = None
     /\ (exists quiz', heap w' !! 0%nat = Some quiz'
           /\ active quiz' = false /\ status quiz' = "stopped"%string)
     /\ exists rest,
          outbox w' = outbox w_round ++ (1, QuizStopped "Zed") :: rest.
Proof.
  apply (private_chat_anyone_stops entropy0 members0 1 99 "Zed" w_round 0
           quiz_round).
  reflexivity.
Defined.

(** ** More of the played session *)

Definition quiz_setup : quiz :=
  Eval vm_compute in
    match get_quiz 1 w_setup with Some (_, q) => q | None => new_quiz 0 end.

Definition quiz_active : quiz :=
  Eval vm_compute in
    match get_quiz 1 w_active with Some (_, q) => q | None => new_quiz 0 end.

Definition questions_active : list question :=
  Eval vm_compute in default [] (questions_data quiz_active).



Lemma speed_bonus_decreasing_witness : speed_bonus 5 <= speed_bonus (1 # 10).
Proof. apply (speed_bonus_decreasing (1 # 10) 5). vm_compute. discriminate. Defined.

Lemma correct_answer_points_bounds_witness :
  exists w' earned total,
    handle_text_answer todecimal0 1 101 "A" "2" 1030 w_abc = Returned w'
    /\ outbox w' = outbox w_abc ++ [(1, CorrectAnswer "A" 2 earned total)]
    /\ total = prior_points 101 scores_abc + earned
    /\ 100 + 10 * prior_streak 101 scores_abc <= earned
       <= 150 + 10 * prior_streak 101 scores_abc
    /\ ((1000 + 20 <= 1030)%Q ->
        earned = 100 + 10 * prior_streak 101 scores_abc).
Proof.
  apply (correct_answer_points_bounds todecimal0 1 101 "A" "2" 1030 w_abc 0
           (set_scores (Some scores_abc) quiz_round) 1000 details_round
           scores_abc round_open_w_abc eq_refl).
  vm_compute. discriminate.
Defined.

Lemma configuring_w_setup : configuring 1 10 w_setup 0 quiz_setup.
Proof. split; reflexivity. Defined.

Lemma configuring_w_difficulty :
  configuring 1 10 w_difficulty 0 quiz_difficulty.
Proof. split; reflexivity. Defined.

Lemma ready_w_active :
  ready 1 w_active 0 quiz_active questions_active [].
Proof. split; try reflexivity. by eexists. Defined.

Lemma stop_quiz_authorisation_witness :
  stop_quiz entropy0 members0 1 99 "Zed" "group" w_round
  = send_message 1 OnlyHostOrAdmin w_round.
Proof.
  destruct (stop_quiz_authorisation entropy0 members0 1 99 "Zed" "group"
              w_round 0 quiz_round eq_refl) as [_ Hrefused].
  apply Hrefused. intros [H|[H|[H|H]]]; discriminate H.
Defined.



Lemma cancel_removes_session_witness :
  exists w',
    handle_config_callback entropy0 todecimal0 1 10 "config:cancel:setup" w_setup
    = Returned w'
    /\ get_quiz 1 w' = None
    /\ (forall g, g <> 1 -> get_quiz g w' = get_quiz g w_setup)
    /\ heap w' = heap w_setup
    /\ outbox w' = outbox w_setup ++ [(1, SetupCancelled)].
Proof.
  apply (cancel_removes_session entropy0 todecimal0 1 10 "config:cancel:setup"
           "config" "setup" w_setup 0 quiz_setup configuring_w_setup).
  reflexivity.
Defined.

Lemma difficulty_choice_recorded_witness :
  exists w' quiz',
    handle_config_callback entropy0 todecimal0 1 10 "config:difficulty:medium" w_setup
    = Returned w'
    /\ get_quiz 1 w' = Some (0%nat, quiz')
    /\ difficulty (config quiz') = Some "medium"%string
    /\ num_questions (config quiz') = num_questions (config quiz_setup)
    /\ status quiz' = "configuring"%string
    /\ active quiz' = active quiz_setup
    /\ questions_data quiz' = questions_data quiz_setup
    /\ configuring 1 10 w' 0 quiz'
    /\ outbox w' = outbox w_setup ++ [(1, DifficultySet "medium")].
Proof.
  apply (difficulty_choice_recorded entropy0 todecimal0 1 10 "config:difficulty:medium"
           "config" "medium" w_setup 0 quiz_setup configuring_w_setup).
  reflexivity.
Defined.

Lemma question_count_without_difficulty_witness :
  exists w' quiz',
    handle_config_callback entropy0 todecimal0 1 10 "config:questions:5" w_setup
    = Raised Py.KeyError w'
    /\ get_quiz 1 w' = Some (0%nat, quiz')
    /\ num_questions (config quiz') = Some 5
    /\ difficulty (config quiz') = None
    /\ status quiz' = "configuring"%string
    /\ active quiz' = active quiz_setup
    /\ questions_data quiz' = questions_data quiz_setup
    /\ outbox w' = outbox w_setup
    /\ rng w' = rng w_setup.
Proof.
  apply (question_count_without_difficulty entropy0 todecimal0 1 10 "config:questions:5"
           "config" "5" 5 w_setup 0 quiz_setup configuring_w_setup);
    reflexivity.
Defined.

Lemma unusable_callback_data_witness :
  handle_config_callback entropy0 todecimal0 1 10 "config:questions" w_setup
  = Raised Py.ValueError w_setup
  /\ handle_config_callback entropy0 todecimal0 1 10 "config:questions:five"
       w_setup
     = Raised Py.ValueError w_setup.
Proof.
  destruct (unusable_callback_data entropy0 todecimal0 1 10
              "config:questions" w_setup 0 quiz_setup configuring_w_setup)
    as [Hparts _].
  destruct (unusable_callback_data entropy0 todecimal0 1 10
              "config:questions:five" w_setup 0 quiz_setup
              configuring_w_setup)
    as (_ & Hcount & _).
  split.
  - apply Hparts. vm_compute. discriminate.
  - apply (Hcount "config" "five"); reflexivity.
Defined.

Lemma answer_changes_only_open_round_witness :
  exists l quiz start details,
    get_quiz 1 w_round = Some (l, quiz)
    /\ active quiz = true
    /\ first_answerer_id quiz = None
    /\ q_start_time_truthy quiz = Some start
    /\ current_question_details quiz = Some details
    /\ Py.int todecimal0 (Py.strip (Py.decode "2")) = Some (q_answer details).
Proof.
  apply (answer_changes_only_open_round todecimal0 1 7 "Ann" "2" 1001 w_round).
  intros H. apply (f_equal outbox) in H. vm_compute in H. discriminate H.
Defined.


Lemma timeout_resets_streaks_only_witness :
  exists w' quiz' sc',
    end_question_by_timeout 1 0 w_abc = Returned w'
    /\ get_quiz 1 w' = Some (0%nat, quiz')
    /\ scores quiz' = Some sc'
    /\ map fst sc' = map fst scores_abc
    /\ map (fun e => points (snd e)) sc'
       = map (fun e => points (snd e)) scores_abc
    /\ map (fun e => username (snd e)) sc'
       = map (fun e => username (snd e)) scores_abc
    /\ Forall (fun e => streak (snd e) = 0) sc'
    /\ first_answerer_id quiz' = None
    /\ current_q_index quiz' = Some 0.
Proof.
  apply (timeout_resets_streaks_only 1 0 w_abc 0
           (set_scores (Some scores_abc) quiz_round) 1000 details_round
           scores_abc round_open_w_abc eq_refl).
Defined.

Lemma loop_iteration_opens_round_witness :
  exists w' quiz',
    loop_iteration 1 0 5 0 1000 w_active = (Returned w', Waiting 0 5 0)
    /\ round_open 1 w' 0 quiz' 1000 details_round []
    /\ current_q_index quiz' = Some 0
    /\ current_question_event quiz' = Some false
    /\ questions_data quiz' = Some questions_active
    /\ outbox w' = outbox w_active
         ++ [(1, QuestionPrompt (0 + 1) 5 (q_text details_round))].
Proof.
  apply (loop_iteration_opens_round 1 0 5 0 1000 w_active quiz_active
           questions_active [] details_round ready_w_active).
  - reflexivity.
  - reflexivity.
  - vm_compute. discriminate.
Defined.

Lemma unanswered_quiz_runs_to_its_end_witness :
  exists w',
    run_unanswered entropy0 1 (fun _ => 1000%Q) 22
      (Iteration 0 (Z.of_nat (length questions_active)) 0) w_active
    = (w', Exited)
    /\ get_quiz 1 w' = None
    /\ (exists quiz', heap w' !! 0%nat = Some quiz' /\ active quiz' = false)
    /\ outbox w' = outbox w_active
         ++ unanswered_messages 1 (Z.of_nat (length questions_active)) 0
              questions_active.
Proof.
  apply (unanswered_quiz_runs_to_its_end entropy0 1 (fun _ => 1000%Q) 0
           quiz_active questions_active w_active 22).
  - intros i. vm_compute. discriminate.
  - exact ready_w_active.
  - vm_compute. lia.
Defined.

Lemma correct_answer_keeps_board_keys_witness :
  exists w' quiz' sc',
    handle_text_answer todecimal0 1 7 "Ann" "2" 1001 w_abc = Returned w'
    /\ get_quiz 1 w' = Some (0%nat, quiz')
    /\ scores quiz' = Some sc'
    /\ map fst sc'
       = map fst scores_abc
         ++ match scores_get 7 scores_abc with
            | Some _ => []
            | None => [7]
            end
    /\ (List.NoDup (map fst scores_abc) -> List.NoDup (map fst sc')).
Proof.
  apply (correct_answer_keeps_board_keys todecimal0 1 7 "Ann" "2" 1001 w_abc 0
           (set_scores (Some scores_abc) quiz_round) 1000 details_round
           scores_abc round_open_w_abc eq_refl).
Defined.



Lemma answer_whitespace_ignored_witness :
  handle_text_answer todecimal0 1 7 "Ann" "  2 " 1001 w_round
  = handle_text_answer todecimal0 1 7 "Ann" "2" 1001 w_round.
Proof.
  apply (answer_whitespace_ignored todecimal0 1 7 "Ann" "  " "2" " " 1001 w_round).
  - repeat constructor.
  - repeat constructor.
Defined.

Lemma heap_ok_w_empty : heap_ok w_empty.
Proof. intros l q H. vm_compute in H. discriminate H. Defined.

Lemma heap_ok_w_round : heap_ok w_round.
Proof.
  apply (loop_step_heap_ok entropy0 1 1000 (Iteration 0 5 0) w_active).
  apply (handle_config_callback_heap_ok entropy0 todecimal0 1 10 "config:questions:5"
           w_difficulty).
  apply (handle_config_callback_heap_ok entropy0 todecimal0 1 10 "config:difficulty:easy"
           w_setup).
  apply (quiz_command_heap_ok 1 10 "Host" 500 w_empty).
  exact heap_ok_w_empty.
Defined.

Lemma answer_and_timeout_never_raise_witness :
  (exists w', handle_text_answer todecimal0 1 7 "Ann" "2" 1001 w_round = Returned w')
  /\ (0 <= 0 -> exists w', end_question_by_timeout 1 0 w_round = Returned w').
Proof.
  apply (answer_and_timeout_never_raise todecimal0 1 7 "Ann" "2" 1001 0 w_round
           heap_ok_w_round).
Defined.

Lemma quiz_shapes_preserved_witness :
  heap_ok (dispatch entropy0 members0 todecimal0 1
             (RoundEvent (Answer 7 "Ann" "2" 1001)) w_round)
  /\ heap_ok (world_of (loop_step entropy0 1 1001 (Waiting 0 5 0) w_round).1).
Proof.
  apply (quiz_shapes_preserved entropy0 members0 todecimal0 1
           (RoundEvent (Answer 7 "Ann" "2" 1001)) 1001 (Waiting 0 5 0)
           w_round heap_ok_w_round).
Defined.

(** The answer 2 of round 0 written as U+0662, the Arabic-Indic digit
    two, which is the bytes 217 and 162. *)
Definition arabic_indic_two : string :=
  String "217" (String "162" EmptyString).

Lemma answer_in_any_script_witness :
  exists w' earned total,
    handle_text_answer todecimal0 1 7 "Ann" arabic_indic_two 1001 w_round
    = Returned w'
    /\ outbox w' = outbox w_round
         ++ [(1, CorrectAnswer "Ann" 2 earned total)].
Proof.
  apply (answer_in_any_script todecimal0 1 7 "Ann" arabic_indic_two 1001
           w_round 0 quiz_round 1000 details_round [] 0x0662%N 2%N
           round_open_w_round).
  - reflexivity.
  - vm_compute. discriminate.
  - reflexivity.
  - reflexivity.
  - reflexivity.
  - reflexivity.
Defined.

(** What the two readers of integers make of white space: the answer
    handler strips the text first and so takes the separator U+001C and
    the no-break space U+00A0 (bytes 194 and 160) around an answer; the
    question count is read as it stands, where the separator is no
    white space and the no-break space is. *)
Lemma white_space_of_the_two_readers :
  Py.int todecimal0 (Py.strip (Py.decode (String "028" "2"))) = Some 2
  /\ Py.int todecimal0 (Py.strip (Py.decode (String "194" (String "160" "2"))))
     = Some 2
  /\ Py.int todecimal0 (Py.decode (String "028" "5")) = None
  /\ Py.int todecimal0 (Py.decode (String "194" (String "160" "5"))) = Some 5
  /\ Py.int todecimal0 (Py.decode " 1_0 ") = Some 10
  /\ Py.int todecimal0 (Py.decode "1__0") = None
  /\ Py.int todecimal0 (Py.decode "-7") = Some (-7)
  /\ Py.int todecimal0 (Py.decode "2.0") = None.
Proof. repeat split; reflexivity. Qed.
